(** * v6-omop-cohort-diagnostics: orchestrator and participant worker

    A shallow embedding of [src/v6-omop-test/__init__.py]:

    - [central], the orchestrator that resolves the participant set and
      submits one task to the vantage6 server;
    - [cohort_diagnostics], the worker that derives cohort identifiers,
      builds the cohort definition set and drives the OHDSI libraries;
    - [_create_cohort_query], the helper around circe.

    Python integers are [Z], Python strings are [string], Python floats are
    IEEE 754 binary64 values in the representation of the standard library's
    [SpecFloat].  Calls to the vantage6 client, to the OHDSI packages and to
    pandas are calls to an environment: they are recorded in a trace and they
    may raise. *)

From Stdlib Require Import ZArith List Lia Bool.
From Stdlib Require Import Strings.Ascii Strings.String.
From Stdlib Require Import Numbers.DecimalString Numbers.DecimalPos
  Numbers.DecimalN Numbers.DecimalZ
  Numbers.DecimalFacts.
From Stdlib Require Import Floats.SpecFloat.
From stdpp Require Import base decidable countable list gmap strings.

Local Open Scope Z_scope.

(* ================================================================== *)
(** * Python exceptions and fallible results *)
(* ================================================================== *)

(** The exceptions the modelled code can raise itself, and [ExternalError]
    for whatever an external service or library raises. *)
Inductive exn : Type :=
  | ValueError (msg : string)
  | KeyError (key : string)
  | IndexError
  | TypeError (msg : string)
  | ExternalError (origin : string).

Inductive result (A : Type) : Type :=
  | Raise (e : exn)
  | Return (a : A).
Arguments Raise {A} e.
Arguments Return {A} a.

Definition result_bind {A B} (r : result A) (k : A -> result B) : result B :=
  match r with
  | Raise e => Raise e
  | Return a => k a
  end.

(** A list comprehension whose element expression may raise: elements are
    evaluated left to right and the first exception aborts the whole list. *)
Fixpoint result_map {A B} (f : A -> result B) (l : list A) : result (list B) :=
  match l with
  | [] => Return []
  | x :: l' =>
      result_bind (f x) (fun y =>
      result_bind (result_map f l') (fun ys => Return (y :: ys)))
  end.

(* ================================================================== *)
(** * Formatting integers: [f"{z}"] and [f"{z:0wd}"] *)
(* ================================================================== *)

Module PyFormat.

(** The decimal digits of a natural number, without leading zeros
    (["0"] for zero). *)
Definition digits (n : N) : string :=
  NilZero.string_of_uint (N.to_uint n).

(** [f"{z}"], that is [str(z)] on an integer. *)
Definition str_int (z : Z) : string :=
  if z <? 0 then String "-" (digits (Z.abs_N z)) else digits (Z.abs_N z).

Fixpoint zeros (k : nat) : string :=
  match k with
  | O => EmptyString
  | S k' => String "0" (zeros k')
  end.

(** [f"{z:0wd}"]: sign-aware zero padding up to a total width of [w]
    characters; longer numbers are not truncated. *)
Definition format_0d (w : nat) (z : Z) : string :=
  let d := digits (Z.abs_N z) in
  if z <? 0
  then String "-" (zeros (w - 1 - String.length d) +:+ d)
  else zeros (w - String.length d) +:+ d.

End PyFormat.

(* ================================================================== *)
(** * Python floats *)
(* ================================================================== *)

Module PyFloat.

(** A Python float is a binary64 value. *)
Definition float : Type := spec_float.

Definition prec : Z := 53.
Definition emax : Z := 1024.

(** The binary64 value nearest to an integer (ties to even). *)
Definition of_Z (z : Z) : float := binary_normalize prec emax z 0 false.

Definition digit_value (c : ascii) : option Z :=
  let n := Z.of_nat (nat_of_ascii c) in
  if (48 <=? n) && (n <=? 57) then Some (n - 48) else None.

(** Reading a run of decimal digits, most significant first. *)
Fixpoint parse_digits (acc : Z) (s : string) : option Z :=
  match s with
  | EmptyString => Some acc
  | String c s' =>
      match digit_value c with
      | Some d => parse_digits (10 * acc + d) s'
      | None => None
      end
  end.

(** A non-empty run of decimal digits. *)
Definition parse_nat (s : string) : option Z :=
  match s with
  | EmptyString => None
  | _ => parse_digits 0 s
  end.

(** [float(s)] for the strings the worker builds.  These consist of decimal
    digits and minus signs only; on this alphabet [float] accepts exactly
    an optional leading minus sign followed by at least one digit, reads
    the digits as a decimal integer, rounds it correctly to binary64, and
    raises [ValueError] on everything else. *)
Definition of_string (s : string) : result float :=
  match s with
  | EmptyString => Raise (ValueError "could not convert string to float")
  | String c s' =>
      if Ascii.eqb c "-" then
        match parse_nat s' with
        | Some z => Return (SFopp (of_Z z))
        | None => Raise (ValueError "could not convert string to float")
        end
      else
        match parse_nat s with
        | Some z => Return (of_Z z)
        | None => Raise (ValueError "could not convert string to float")
        end
  end.

(** The integer a float denotes, when it denotes one
    ([int(x)] guarded by [x.is_integer()]). *)
Definition to_Z (x : float) : option Z :=
  match x with
  | S754_zero _ => Some 0
  | S754_finite s m e =>
      if 0 <=? e then Some (cond_Zopp s (Z.pos m * 2 ^ e))
      else if Z.pos m mod 2 ^ (- e) =? 0
           then Some (cond_Zopp s (Z.pos m / 2 ^ (- e)))
           else None
  | _ => None
  end.

(** Python's [==] on floats. *)
Definition eqb (x y : float) : bool := SFeqb x y.

End PyFloat.

(* ================================================================== *)
(** * Run metadata and identifier derivation *)
(* ================================================================== *)

(** [RunMetaData]: the fields of the run the worker reads. *)
Record RunMetaData : Type := {
  task_id : Z;
  node_id : Z;
}.

(** The text [f"{meta_run.node_id}{meta_run.task_id:04d}{i:03d}"]. *)
Definition cohort_id_text (meta_run : RunMetaData) (i : nat) : string :=
  PyFormat.str_int (node_id meta_run)
  +:+ PyFormat.format_0d 4 (task_id meta_run)
  +:+ PyFormat.format_0d 3 (Z.of_nat i).

(** One element of the comprehension: [float(f"...")]. *)
Definition cohort_id (meta_run : RunMetaData) (i : nat) : result PyFloat.float :=
  PyFloat.of_string (cohort_id_text meta_run i).

(** [cohort_ids = [float(f"...") for i in range(0, n)]]. *)
Definition cohort_ids (meta_run : RunMetaData) (n : nat)
  : result (list PyFloat.float) :=
  result_map (cohort_id meta_run) (seq 0 n).

(** [cohort_table = f"cohort_{meta_run.task_id}_{meta_run.node_id}"]. *)
Definition cohort_table_name (meta_run : RunMetaData) : string :=
  "cohort_" +:+ PyFormat.str_int (task_id meta_run)
  +:+ "_" +:+ PyFormat.str_int (node_id meta_run).


(** The digits of an identifier after the sign of the node identifier. *)
Definition id_digits (meta_run : RunMetaData) (i : nat) : string :=
  PyFormat.digits (Z.abs_N (node_id meta_run))
  +:+ PyFormat.format_0d 4 (task_id meta_run)
  +:+ PyFormat.format_0d 3 (Z.of_nat i).

(** The number those digits denote when the task identifier is not negative:
    the node identifier's digits, shifted left past the digits actually
    printed for the task identifier and the index. *)
Definition id_magnitude (meta_run : RunMetaData) (i : nat) : Z :=
  let l4 := Z.of_nat (String.length (PyFormat.format_0d 4 (task_id meta_run))) in
  let l3 := Z.of_nat (String.length (PyFormat.format_0d 3 (Z.of_nat i))) in
  Z.abs (node_id meta_run) * 10 ^ (l4 + l3)
  + task_id meta_run * 10 ^ l3 + Z.of_nat i.

(** The single number formed by concatenating the node identifier, the padded
    task identifier and the padded index. *)
Definition concatenated_number (meta_run : RunMetaData) (i : nat) : Z :=
  if node_id meta_run <? 0 then - id_magnitude meta_run i
  else id_magnitude meta_run i.

(* ================================================================== *)
(** * Python values that cross the interfaces *)
(* ================================================================== *)

(** Documents: cohort definitions, settings, task descriptions, results.
    A [JDict] keeps its items in insertion order. *)
#[warnings="-register-all"]
Inductive json : Type :=
  | JNull
  | JBool (b : bool)
  | JInt (z : Z)
  | JStr (s : string)
  | JList (items : list json)
  | JDict (items : list (string * json)).

(** Hashable scalars: what a Python [set] built here can hold. *)
Inductive atom : Type :=
  | AInt (z : Z)
  | AStr (s : string).

Global Instance atom_eq_dec : EqDecision atom.
Proof. solve_decision. Defined.

Global Instance atom_countable : Countable atom.
Proof.
  refine (inj_countable'
    (fun a => match a with AInt z => inl z | AStr s => inr s end)
    (fun x => match x with inl z => AInt z | inr s => AStr s end) _).
  intros []; reflexivity.
Defined.

(** A participant selector: the string sentinel, or any string, or a list of
    organization identifiers.  These are the iterables of hashable values,
    the arguments on which [set(...)] is defined. *)
Inductive selector : Type :=
  | SelStr (s : string)
  | SelList (l : list atom).

Global Instance selector_eq_dec : EqDecision selector.
Proof. solve_decision. Defined.

(** The characters of a string, each as a one-character string: what
    iterating over a Python string yields. *)
Fixpoint chars (s : string) : list atom :=
  match s with
  | EmptyString => []
  | String c s' => AStr (String c EmptyString) :: chars s'
  end.

(** [set(x)]. *)
Definition py_set (x : selector) : gset atom :=
  match x with
  | SelStr s => list_to_set (chars s)
  | SelList l => list_to_set l
  end.

(** [a.issubset(b)]. *)
Definition issubset (a b : gset atom) : bool := bool_decide (a ⊆ b).

(** [x != "ALL"]: a list is never equal to a string, and strings are compared
    character by character. *)
Definition ne_ALL (x : selector) : bool :=
  match x with
  | SelStr s => negb (String.eqb s "ALL")
  | SelList _ => true
  end.

(* ================================================================== *)
(** * Calls to the environment *)
(* ================================================================== *)

(** A computation that reads and updates a state and may raise. *)
Definition M (St A : Type) : Type := St -> result A * St.

Global Instance M_ret {St} : MRet (M St) := fun A a st => (Return a, st).

Global Instance M_bind {St} : MBind (M St) := fun A B k m st =>
  match m st with
  | (Raise e, st') => (Raise e, st')
  | (Return a, st') => k a st'
  end.

(** A pure fallible value inside a computation. *)
Definition lift {St A} (r : result A) : M St A := fun st => (r, st).

(** A list comprehension whose element expression calls the environment. *)
Fixpoint M_map {St A B} (f : A -> M St B) (l : list A) : M St (list B) :=
  match l with
  | [] => mret []
  | x :: l' => y ← f x; ys ← M_map f l'; mret (y :: ys)
  end.

(** The state: the environment's own state, and the calls made so far, oldest
    first. *)
Record state (World Event : Type) : Type := {
  world : World;
  trace : list Event;
}.
Arguments world {World Event} s.
Arguments trace {World Event} s.

(** Calling the environment: the call is recorded, then it runs. *)
Definition call {World Event A} (ev : Event)
    (f : World -> result A * World) : M (state World Event) A :=
  fun st =>
    let '(r, w) := f (world st) in
    (r, {| world := w; trace := trace st ++ [ev] |}).

(** A call that cannot fail and leaves the environment alone, such as a
    progress notification. *)
Definition emit {World Event} (ev : Event) : M (state World Event) unit :=
  call ev (fun w => (Return tt, w)).

(** A pure library function whose call is recorded. *)
Definition call_pure {World Event A} (ev : Event) (r : result A)
  : M (state World Event) A :=
  call ev (fun w => (r, w)).

(** A computation is quiet for a class of events when it records none of
    them, whatever its outcome. *)
Definition quiet {World Event A} (P : Event -> bool)
    (m : M (state World Event) A) : Prop :=
  forall st, List.filter P (trace (m st).2) = List.filter P (trace st).

(* ================================================================== *)
(** * The orchestrator: [central] *)
(* ================================================================== *)

Module Central.

(** An organization as listed by the server; [org["id"]] is [org_id]. *)
Record organization : Type := { org_id : atom }.

(** The part of [AlgorithmClient] the orchestrator uses. *)
Class AlgorithmClient (World : Type) : Type := {
  (** [client.organization.list()] *)
  organization_list : World -> result (list organization) * World;
  (** [client.task.create(input_=..., organizations=...)] *)
  task_create : json -> selector -> World -> result (gmap string json) * World;
  (** [client.wait_for_results(task_id=...)] *)
  wait_for_results : json -> World -> result json * World;
}.

(** Progress notifications. *)
Inductive message : Type :=
  | Text (s : string)
  (** [f'Task assigned, id: {task.get("id")}'] *)
  | TaskAssigned (id : option json).

Inductive event : Type :=
  | Info (m : message)
  | OrganizationList
  | TaskCreate (input_ : json) (organizations : selector)
  | WaitForResults (task_id : json).

Definition is_task_create (ev : event) : bool :=
  match ev with TaskCreate _ _ => true | _ => false end.

Definition is_wait (ev : event) : bool :=
  match ev with WaitForResults _ => true | _ => false end.

(** The task description built on lines 80-88. *)
Definition task_input
    (cohort_definitions cohort_names temporal_covariate_settings
     diagnostics_settings : json) : json :=
  JDict [
    ("method", JStr "cohort_diagnostics");
    ("kwargs", JDict [
       ("cohort_definitions", cohort_definitions);
       ("cohort_names", cohort_names);
       ("temporal_covariate_settings", temporal_covariate_settings);
       ("diagnostics_settings", diagnostics_settings)
     ])
  ]%string.

Definition not_in_collaboration : json :=
  JDict [("msg",
          JStr ("You specified an organization that is not part of the "
                +:+ "collaboration"))]%string.

Section Orchestrator.
Context {World : Type} `{client : AlgorithmClient World}.

Abbreviation St := (state World event).

Definition info (m : message) : M St unit := emit (Info m).

(** Lines 77-98: request the computation and wait for it. *)
Definition request_and_wait
    (cohort_definitions cohort_names temporal_covariate_settings
     diagnostics_settings : json) (ids : selector) : M St json :=
  info (Text "Requesting partial computation");;
  let input_ := task_input cohort_definitions cohort_names
                  temporal_covariate_settings diagnostics_settings in
  task ← call (TaskCreate input_ ids) (task_create input_ ids);
  info (TaskAssigned (task !! "id"%string));;
  info (Text "Waiting for results");;
  id ← lift (match task !! "id"%string with
             | Some v => Return v
             | None => Raise (KeyError "id")
             end);
  all_results ← call (WaitForResults id) (wait_for_results id);
  info (Text "Results received, sending them back to server");;
  mret all_results.

(** [central]; [organizations_to_include = None] is a call that leaves the
    argument out, so that its default applies. *)
Definition central
    (cohort_definitions cohort_names temporal_covariate_settings
     diagnostics_settings : json)
    (organizations_to_include : option selector) : M St json :=
  let organizations_to_include :=
    default (SelStr "ALL") organizations_to_include in
  info (Text "Collecting participating organizations");;
  organizations ← call OrganizationList organization_list;
  let ids := map org_id organizations in
  if ne_ALL organizations_to_include then
    if negb (issubset (py_set organizations_to_include)
                      (py_set (SelList ids)))
    then mret not_in_collaboration
    else request_and_wait cohort_definitions cohort_names
           temporal_covariate_settings diagnostics_settings
           organizations_to_include
  else request_and_wait cohort_definitions cohort_names
         temporal_covariate_settings diagnostics_settings (SelList ids).

End Orchestrator.

End Central.

(** A collaboration of three organizations whose server accepts every task:
    the environment the orchestrator's theorems are instantiated at. *)
Module SampleCollaboration.
Import Central.

Definition organizations : list organization :=
  [ {| org_id := AInt 1 |}; {| org_id := AInt 2 |}; {| org_id := AInt 3 |} ].

#[local] Instance client : AlgorithmClient unit := {|
  organization_list w := (Return organizations, w);
  task_create input_ orgs w := (Return {[ "id"%string := JInt 42 ]}, w);
  wait_for_results id w := (Return (JList [JStr "{}"%string]), w);
|}.

Definition start : state unit event := {| world := tt; trace := [] |}.

Definition no_definitions : json := JList [].

Definition no_settings : json := JDict [].
End SampleCollaboration.

(* ================================================================== *)
(** * The participant worker: [cohort_diagnostics] *)
(* ================================================================== *)

Module Worker.

(** [OHDSIMetaData]: the fields the worker reads.  A path is the list of
    its components; [p / "x"] appends a component. *)
Record OHDSIMetaData : Type := {
  cdm_schema : string;
  results_schema : string;
  export_folder : list string;
}.

Definition path_div (p : list string) (name : string) : list string :=
  p ++ [name].

(** [str(path)] *)
Definition path_str (p : list string) : string := String.concat "/" p.

(** One row of the cohort definition set. *)
Record work_item : Type := {
  cohortId : PyFloat.float;
  cohortName : string;
  json_ : json;
  sql : string;
  logicDescription : option string;
  generateStats : bool;
}.

(** The rows of a frame given by columns of one common length. *)
Fixpoint rows (ids : list PyFloat.float) (names : list string)
    (defs : list json) (sqls : list string)
    (logic : list (option string)) (stats : list bool) : list work_item :=
  match ids, names, defs, sqls, logic, stats with
  | i :: ids', nm :: names', d :: defs', q :: sqls', l :: logic', g :: stats' =>
      {| cohortId := i; cohortName := nm; json_ := d; sql := q;
         logicDescription := l; generateStats := g |}
      :: rows ids' names' defs' sqls' logic' stats'
  | _, _, _, _, _, _ => []
  end.

(** [pd.DataFrame({...})] on a dict of six lists: pandas refuses columns of
    different lengths. *)
Definition DataFrame (ids : list PyFloat.float) (names : list string)
    (defs : list json) (sqls : list string)
    (logic : list (option string)) (stats : list bool)
  : result (list work_item) :=
  let n := length ids in
  if (length names =? n)%nat && (length defs =? n)%nat
     && (length sqls =? n)%nat && (length logic =? n)%nat
     && (length stats =? n)%nat
  then Return (rows ids names defs sqls logic stats)
  else Raise (ValueError "All arrays must be of the same length").

(** The keyword arguments [execute_diagnostics] is called with; [extra]
    holds the items of [**diagnostics_settings]. *)
Record diagnostics_call (Connection RObject : Type) : Type := {
  cohort_definition_set : RObject;
  arg_export_folder : string;
  database_id : Z;
  database_name : string;
  database_description : string;
  cohort_database_schema : string;
  connection : Connection;
  cdm_database_schema : string;
  cohort_table : string;
  cohort_table_names : RObject;
  vocabulary_database_schema : string;
  arg_cohort_ids : option (list Z);
  cdm_version : Z;
  arg_temporal_covariate_settings : RObject;
  extra : gmap string json;
}.
Arguments cohort_definition_set {_ _} _.
Arguments arg_export_folder {_ _} _.
Arguments database_id {_ _} _.
Arguments database_name {_ _} _.
Arguments database_description {_ _} _.
Arguments cohort_database_schema {_ _} _.
Arguments connection {_ _} _.
Arguments cdm_database_schema {_ _} _.
Arguments cohort_table {_ _} _.
Arguments cohort_table_names {_ _} _.
Arguments vocabulary_database_schema {_ _} _.
Arguments arg_cohort_ids {_ _} _.
Arguments cdm_version {_ _} _.
Arguments arg_temporal_covariate_settings {_ _} _.
Arguments extra {_ _} _.

(** The keywords written out in the call on lines 166-181. *)
Definition explicit_keywords : list string :=
  ["cohort_definition_set"; "export_folder"; "database_id"; "database_name";
   "database_description"; "cohort_database_schema"; "connection";
   "cdm_database_schema"; "cohort_table"; "cohort_table_names";
   "vocabulary_database_schema"; "cohort_ids"; "cdm_version";
   "temporal_covariate_settings"]%string.

(** circe: a translator from cohort definitions to queries; its functions
    depend on their arguments only. *)
Class Circe (Expression Options : Type) : Type := {
  cohort_expression_from_json : json -> result Expression;
  create_generate_options : bool -> Options;
  build_cohort_query : Expression -> Options -> result (list string);
}.

(** The other OHDSI packages and pandas, as far as the worker uses them. *)
Class Ohdsi (World Connection RObject Frame : Type) : Type := {
  (** [cohort_generator.get_cohort_table_names(cohort_table)] *)
  get_cohort_table_names : string -> World -> result RObject * World;
  (** [cohort_generator.create_cohort_tables(connection, schema, names)] *)
  create_cohort_tables :
    Connection -> string -> RObject -> World -> result unit * World;
  (** [ohdsi_common.convert_to_r(cohort_definition_set)] *)
  convert_to_r : list work_item -> World -> result RObject * World;
  (** [cohort_generator.generate_cohort_set(connection, cdm, schema, names, set)] *)
  generate_cohort_set :
    Connection -> string -> string -> RObject -> RObject ->
    World -> result unit * World;
  (** [feature_extraction.create_temporal_covariate_settings], called with
      the items of the settings as keyword arguments *)
  create_temporal_covariate_settings :
    gmap string json -> World -> result RObject * World;
  (** [ohdsi_cohort_diagnostics.execute_diagnostics(...)] *)
  execute_diagnostics :
    diagnostics_call Connection RObject -> World -> result unit * World;
  (** [pd.read_csv(path)] *)
  read_csv : list string -> World -> result Frame * World;
  (** [df.to_json()] *)
  to_json : Frame -> string;
}.

Section Participant.
Context {Expression Options : Type} `{circe : Circe Expression Options}.
Context {World Connection RObject Frame : Type}
        `{ohdsi : Ohdsi World Connection RObject Frame}.

(** Progress notifications; those that print a value the model does not
    render as text carry the value. *)
Inductive message : Type :=
  | Text (s : string)
  (** [f"cohort ids: {cohort_ids}"] *)
  | CohortIds (ids : list PyFloat.float)
  (** [f"Tables: {cohort_table_names}"] *)
  | Tables (names : RObject).

Inductive event : Type :=
  | Info (m : message)
  | CohortExpressionFromJson (cohort_definition : json)
  | CreateGenerateOptions (generate_stats : bool)
  | BuildCohortQuery (e : Expression) (o : Options)
  | GetCohortTableNames (cohort_table : string)
  | CreateCohortTables (c : Connection) (schema : string) (names : RObject)
  | ConvertToR (df : list work_item)
  | GenerateCohortSet (c : Connection) (cdm schema : string)
      (names set : RObject)
  | CreateTemporalCovariateSettings (settings : gmap string json)
  | ExecuteDiagnostics (args : diagnostics_call Connection RObject)
  | ReadCsv (path : list string).

(** The calls made against the database connection. *)
Definition is_database_call (ev : event) : bool :=
  match ev with
  | CreateCohortTables _ _ _ | GenerateCohortSet _ _ _ _ _
  | ExecuteDiagnostics _ => true
  | _ => false
  end.

Definition is_read_csv (ev : event) : bool :=
  match ev with ReadCsv _ => true | _ => false end.

Abbreviation St := (state World event).

Definition info (m : message) : M St unit := emit (Info m).

(** [xs[0]] *)
Definition first (xs : list string) : result string :=
  match xs with
  | x :: _ => Return x
  | [] => Raise IndexError
  end.

(** The value [_create_cohort_query] computes. *)
Definition cohort_query (cohort_definition : json) : result string :=
  result_bind (cohort_expression_from_json cohort_definition) (fun e =>
  result_bind (build_cohort_query e (create_generate_options true)) first).

(** [_create_cohort_query], lines 208-210. *)
Definition _create_cohort_query (cohort_definition : json) : M St string :=
  cohort_expression ←
    call_pure (CohortExpressionFromJson cohort_definition)
              (cohort_expression_from_json cohort_definition);
  options ←
    call_pure (CreateGenerateOptions true)
              (Return (create_generate_options true));
  queries ←
    call_pure (BuildCohortQuery cohort_expression options)
              (build_cohort_query cohort_expression options);
  lift (first queries).

(** Lines 117-133: the cohort definition set. *)
Definition build_cohort_definition_set (meta_run : RunMetaData)
    (cohort_definitions : list json) (cohort_names : list string)
  : M St (list work_item) :=
  let n := length cohort_definitions in
  ids ← lift (cohort_ids meta_run n);
  info (CohortIds ids);;
  sqls ← M_map _create_cohort_query cohort_definitions;
  df ← lift (DataFrame ids cohort_names cohort_definitions sqls
               (replicate n None) (replicate n true));
  info (Text ("Generated " +:+ PyFormat.str_int (Z.of_nat n)
              +:+ " cohort definitions"));;
  mret df.

(** Lines 117-186 of [cohort_diagnostics]: everything up to and including
    the diagnostics run. *)
Definition run_diagnostics (conn : Connection)
    (meta_omop : OHDSIMetaData) (meta_run : RunMetaData)
    (cohort_definitions : list json) (cohort_names : list string)
    (temporal_covariate_settings diagnostics_settings : gmap string json)
  : M St unit :=
  df ← build_cohort_definition_set meta_run cohort_definitions cohort_names;
  let table := cohort_table_name meta_run in
  names ← call (GetCohortTableNames table) (get_cohort_table_names table);
  info (Text ("Cohort table name: " +:+ table));;
  info (Tables names);;
  info (Text ("OMOP results schema: " +:+ results_schema meta_omop));;
  call (CreateCohortTables conn (results_schema meta_omop) names)
       (create_cohort_tables conn (results_schema meta_omop) names);;
  info (Text "Created cohort tables");;
  rdf ← call (ConvertToR df) (convert_to_r df);
  call (GenerateCohortSet conn (cdm_schema meta_omop)
          (results_schema meta_omop) names rdf)
       (generate_cohort_set conn (cdm_schema meta_omop)
          (results_schema meta_omop) names rdf);;
  info (Text "Generated cohort set");;
  tcs ← call (CreateTemporalCovariateSettings temporal_covariate_settings)
             (create_temporal_covariate_settings temporal_covariate_settings);
  info (Text "Created temporal covariate settings");;
  let args := {|
    cohort_definition_set := rdf;
    arg_export_folder :=
      path_str (path_div (export_folder meta_omop) "exports");
    database_id := task_id meta_run;
    database_name := PyFormat.format_0d 6 (task_id meta_run);
    database_description := "todo";
    cohort_database_schema := results_schema meta_omop;
    connection := conn;
    cdm_database_schema := cdm_schema meta_omop;
    cohort_table := table;
    cohort_table_names := names;
    vocabulary_database_schema := cdm_schema meta_omop;
    arg_cohort_ids := None;
    cdm_version := 5;
    arg_temporal_covariate_settings := tcs;
    extra := diagnostics_settings;
  |} in
  (* a keyword given both explicitly and through the expanded settings is
     refused before the callee runs *)
  lift (if forallb (fun k => bool_decide (diagnostics_settings !! k = None))
                   explicit_keywords
        then Return tt
        else Raise (TypeError "got multiple values for keyword argument"));;
  call (ExecuteDiagnostics args) (execute_diagnostics args);;
  info (Text "Executed diagnostics").

(** The file read back on line 189. *)
Definition incidence_rate_csv (meta_omop : OHDSIMetaData) : list string :=
  path_div (path_div (export_folder meta_omop) "exports")
           "incidence_rate.csv".

(** [cohort_diagnostics], lines 103-191. *)
Definition cohort_diagnostics (conn : Connection)
    (meta_omop : OHDSIMetaData) (meta_run : RunMetaData)
    (cohort_definitions : list json) (cohort_names : list string)
    (temporal_covariate_settings diagnostics_settings : gmap string json)
  : M St string :=
  run_diagnostics conn meta_omop meta_run cohort_definitions cohort_names
    temporal_covariate_settings diagnostics_settings;;
  df ← call (ReadCsv (incidence_rate_csv meta_omop))
            (read_csv (incidence_rate_csv meta_omop));
  mret (to_json df).

End Participant.

End Worker.

(** A node whose libraries always succeed: the environment the worker's
    theorems are instantiated at. *)
Module SampleNode.
Import Worker.

#[local] Instance circe : Circe json bool := {|
  cohort_expression_from_json d := Return d;
  create_generate_options generate_stats := generate_stats;
  build_cohort_query e o :=
    Return (if o then ["SELECT 1 -- with stats"; "SELECT 2"]%string
            else ["SELECT 1"]%string);
|}.

#[local] Instance ohdsi : Ohdsi unit unit string string := {|
  get_cohort_table_names table w := (Return table, w);
  create_cohort_tables c schema names w := (Return tt, w);
  convert_to_r df w := (Return "cohortDefinitionSet"%string, w);
  generate_cohort_set c cdm schema names set w := (Return tt, w);
  create_temporal_covariate_settings settings w := (Return "settings"%string, w);
  execute_diagnostics args w := (Return tt, w);
  read_csv path w := (Return (String.concat "/" path), w);
  to_json frame := frame;
|}.

Definition start : state unit (event (Expression:=json) (Options:=bool)
                                 (Connection:=unit) (RObject:=string)) :=
  {| world := tt; trace := [] |}.

Definition meta_omop : OHDSIMetaData :=
  {| cdm_schema := "cdm"; results_schema := "results";
     export_folder := ["tmp"%string] |}.

Definition meta_run : RunMetaData := {| task_id := 34; node_id := 12 |}.

Definition no_settings : gmap string json := ∅.

Definition definitions : list json := [JDict []; JDict []].

Definition names : list string := ["A"; "B"]%string.
End SampleNode.

(* ================================================================== *)
(** * Views of the recorded calls, and further sample environments *)
(* ================================================================== *)

Module CentralCalls.
Import Central.

(** The calls to the server among the events. *)
Definition is_dispatch (ev : event) : bool := is_task_create ev || is_wait ev.

(** The target of the task: every listed organization for the sentinel, the
    selector itself otherwise (line 75). *)
Definition resolved_ids sel (orgs : list organization) : selector :=
  if decide (sel = SelStr "ALL") then SelList (map org_id orgs) else sel.
End CentralCalls.

Module SampleService.
Import Central.

(** A server whose three operations answer as given, whatever they are asked. *)
Definition scripted (listing : result (list organization))
    (created : result (gmap string json)) (results : result json)
  : AlgorithmClient unit := {|
  organization_list w := (listing, w);
  task_create input_ orgs w := (created, w);
  wait_for_results id w := (results, w);
|}.

Definition outage : exn := ExternalError "server unreachable".
End SampleService.

(** Whether a character occurs in a text. *)
Fixpoint occurs (c : ascii) (s : string) : bool :=
  match s with
  | EmptyString => false
  | String c' s' => Ascii.eqb c c' || occurs c s'
  end.

Module WorkerCalls.
Import Worker.

Section Calls.
Context {Expression Options Connection RObject : Type}.
Abbreviation event := (event (Expression:=Expression) (Options:=Options)
                          (Connection:=Connection) (RObject:=RObject)).

(** The calls that parse a cohort definition. *)
Definition is_parse (ev : event) : bool :=
  match ev with CohortExpressionFromJson _ => true | _ => false end.

(** The calls to the OHDSI packages other than circe, and to pandas. *)
Definition is_library_call (ev : event) : bool :=
  match ev with
  | Info _ | CohortExpressionFromJson _ | CreateGenerateOptions _
  | BuildCohortQuery _ _ => false
  | _ => true
  end.

(** The calls that act on the database or read the export. *)
Definition is_effect (ev : event) : bool :=
  is_database_call ev || is_read_csv ev.

Definition is_diagnostics_or_read (ev : event) : bool :=
  match ev with ExecuteDiagnostics _ | ReadCsv _ => true | _ => false end.

(** The keyword arguments of lines 166-181, given what the earlier calls
    returned. *)
Definition diagnostics_arguments (conn : Connection)
    (meta_omop : OHDSIMetaData) (meta_run : RunMetaData)
    (names rdf tcs : RObject) (diagnostics_settings : gmap string json)
  : diagnostics_call Connection RObject := {|
  cohort_definition_set := rdf;
  arg_export_folder := path_str (path_div (export_folder meta_omop) "exports");
  database_id := task_id meta_run;
  database_name := PyFormat.format_0d 6 (task_id meta_run);
  database_description := "todo";
  cohort_database_schema := results_schema meta_omop;
  connection := conn;
  cdm_database_schema := cdm_schema meta_omop;
  cohort_table := cohort_table_name meta_run;
  cohort_table_names := names;
  vocabulary_database_schema := cdm_schema meta_omop;
  arg_cohort_ids := None;
  cdm_version := 5;
  arg_temporal_covariate_settings := tcs;
  extra := diagnostics_settings;
|}.

(** The calls that act on the database or read the export, in the order of
    lines 143-189. *)
Definition planned_effects (conn : Connection)
    (meta_omop : OHDSIMetaData) (meta_run : RunMetaData)
    (diagnostics_settings : gmap string json) (names rdf tcs : RObject)
  : list event :=
  [CreateCohortTables conn (results_schema meta_omop) names;
   GenerateCohortSet conn (cdm_schema meta_omop) (results_schema meta_omop)
     names rdf;
   ExecuteDiagnostics
     (diagnostics_arguments conn meta_omop meta_run names rdf tcs
        diagnostics_settings);
   ReadCsv (export_folder meta_omop ++ ["exports"; "incidence_rate.csv"]%string)].

(** Whether [**diagnostics_settings] repeats a keyword of the call. *)
Definition no_repeated_keyword (diagnostics_settings : gmap string json) : bool :=
  forallb (fun k => bool_decide (diagnostics_settings !! k = None))
          explicit_keywords.
End Calls.
End WorkerCalls.

Module SampleFaults.
Import Worker.

(** A translator that accepts JSON objects only. *)
#[local] Instance strict_circe : Circe json bool := {|
  cohort_expression_from_json d :=
    match d with
    | JDict _ => Return d
    | _ => Raise (ValueError "not a cohort definition")
    end;
  create_generate_options generate_stats := generate_stats;
  build_cohort_query e o := Return ["SELECT 1"]%string;
|}.

Definition negative_run : RunMetaData := {| task_id := -1; node_id := 12 |}.

Definition repeated_settings : gmap string json :=
  {[ "connection"%string := JNull ]}.
End SampleFaults.

Module SampleOutages.
Import Worker.

(** The seven calls of the worker outside circe, in the order of the source. *)
Inductive stage : Type :=
  | AtTableNames | AtCreateTables | AtConvert | AtGenerate | AtSettings
  | AtDiagnostics | AtRead.

Definition library_error : exn := ExternalError "R session".

(** Libraries that answer as [SampleNode.ohdsi] does, except that the call
    at the given stage raises. *)
Definition failing_at (s : stage) : Ohdsi unit unit string string := {|
  get_cohort_table_names table w :=
    (match s with AtTableNames => Raise library_error | _ => Return table end,
     w);
  create_cohort_tables c schema names w :=
    (match s with AtCreateTables => Raise library_error | _ => Return tt end,
     w);
  convert_to_r df w :=
    (match s with
     | AtConvert => Raise library_error
     | _ => Return "cohortDefinitionSet"%string
     end, w);
  generate_cohort_set c cdm schema names set w :=
    (match s with AtGenerate => Raise library_error | _ => Return tt end, w);
  create_temporal_covariate_settings settings w :=
    (match s with
     | AtSettings => Raise library_error
     | _ => Return "settings"%string
     end, w);
  execute_diagnostics args w :=
    (match s with AtDiagnostics => Raise library_error | _ => Return tt end,
     w);
  read_csv path w :=
    (match s with
     | AtRead => Raise library_error
     | _ => Return (String.concat "/" path)
     end, w);
  to_json frame := frame;
|}.
End SampleOutages.

(* ================================================================== *)
(** * Proof automation *)
(* ================================================================== *)

(** Filtering a trace that was extended event by event. *)
Ltac trace_filter :=
  simpl; rewrite ?List.filter_app; simpl; rewrite ?app_nil_r, <- ?app_assoc; simpl.

(* ================================================================== *)
(** * Decimal text and the numbers it denotes *)
(* ================================================================== *)

Section Digits.
Import PyFloat PyFormat.

Lemma parse_digits_app s1 s2 acc :
  parse_digits acc (s1 +:+ s2)
  = match parse_digits acc s1 with
    | Some a => parse_digits a s2
    | None => None
    end.
Proof.
  revert acc. induction s1 as [|c s1 IH]; intros acc; simpl; [done|].
  destruct (digit_value c); [apply IH|done].
Qed.

Lemma parse_digits_defined s a b :
  parse_digits a s = None -> parse_digits b s = None.
Proof.
  revert a b. induction s as [|c s IH]; intros a b; simpl; [done|].
  destruct (digit_value c); [apply IH|done].
Qed.

Lemma parse_digits_shift s acc v :
  parse_digits 0 s = Some v ->
  parse_digits acc s = Some (acc * 10 ^ Z.of_nat (String.length s) + v).
Proof.
  revert acc v. induction s as [|c s IH]; intros acc v; simpl.
  - intros [= <-]. f_equal. lia.
  - destruct (digit_value c) as [d|] eqn:Hd; [|done].
    intros H. destruct (parse_digits 0 s) as [v0|] eqn:H0.
    + rewrite (IH _ _ eq_refl) in H. rewrite (IH _ _ eq_refl).
      injection H as <-. f_equal.
      rewrite Nat2Z.inj_succ, Z.pow_succ_r by lia. lia.
    + rewrite (parse_digits_defined _ _ _ H0) in H. done.
Qed.

Lemma parse_digits_zeros k : parse_digits 0 (zeros k) = Some 0.
Proof. induction k; simpl; [done|]. apply IHk. Qed.

Lemma length_zeros k : String.length (zeros k) = k.
Proof. induction k; simpl; [done|]. by rewrite IHk. Qed.

Lemma length_append s1 s2 :
  String.length (s1 +:+ s2) = (String.length s1 + String.length s2)%nat.
Proof. induction s1 as [|c s1 IH]; simpl; [done|]. by rewrite IH. Qed.

Lemma parse_digits_uint_acc d acc :
  parse_digits (Z.pos acc) (NilEmpty.string_of_uint d)
  = Some (Z.pos (Pos.of_uint_acc d acc)).
Proof.
  revert acc. induction d; intros acc; simpl; try done;
    (etransitivity; [|apply IHd]); f_equal;
    match goal with
    | |- context [Z.of_nat (nat_of_ascii ?c)] =>
        let v := eval vm_compute in (Z.of_nat (nat_of_ascii c)) in
        change (Z.of_nat (nat_of_ascii c)) with v
    end; lia.
Qed.

Lemma parse_digits_uint d :
  parse_digits 0 (NilEmpty.string_of_uint d) = Some (Z.of_N (Pos.of_uint d)).
Proof.
  induction d; simpl; try done; try apply parse_digits_uint_acc.
Qed.

Lemma parse_digits_digits n : parse_digits 0 (digits n) = Some (Z.of_N n).
Proof.
  unfold digits. destruct n as [|p]; [done|].
  simpl N.to_uint.
  assert (Hnil : Pos.to_uint p <> Decimal.Nil) by apply Unsigned.to_uint_nonnil.
  replace (NilZero.string_of_uint (Pos.to_uint p))
    with (NilEmpty.string_of_uint (Pos.to_uint p))
    by (destruct (Pos.to_uint p); done).
  rewrite parse_digits_uint. f_equal.
  rewrite DecimalPos.Unsigned.of_to. done.
Qed.

Lemma digits_nonempty n : digits n <> EmptyString.
Proof.
  unfold digits. destruct n as [|p]; [done|]. simpl N.to_uint.
  pose proof (Unsigned.to_uint_nonnil p). destruct (Pos.to_uint p); done.
Qed.
End Digits.

(* ================================================================== *)
(** * Integers that binary64 holds exactly *)
(* ================================================================== *)

Section Binary64.
Import PyFloat.

Lemma digits2_pos_bounds p :
  2 ^ (Z.pos (digits2_pos p) - 1) <= Z.pos p < 2 ^ Z.pos (digits2_pos p).
Proof.
  induction p as [p IH|p IH|]; simpl digits2_pos.
  - rewrite Pos2Z.inj_succ, Z.pow_succ_r by lia.
    replace (Z.succ (Z.pos (digits2_pos p)) - 1)
      with (Z.succ (Z.pos (digits2_pos p) - 1)) by lia.
    rewrite Z.pow_succ_r by lia. lia.
  - rewrite Pos2Z.inj_succ, Z.pow_succ_r by lia.
    replace (Z.succ (Z.pos (digits2_pos p)) - 1)
      with (Z.succ (Z.pos (digits2_pos p) - 1)) by lia.
    rewrite Z.pow_succ_r by lia. lia.
  - simpl. lia.
Qed.

Lemma digits2_pos_le p k :
  0 <= k -> Z.pos p < 2 ^ k -> Z.pos (digits2_pos p) <= k.
Proof.
  intros Hk Hp. destruct (Z_le_gt_dec (Z.pos (digits2_pos p)) k) as [|Hgt]; [done|].
  pose proof (digits2_pos_bounds p) as [Hlo _].
  assert (2 ^ k <= 2 ^ (Z.pos (digits2_pos p) - 1))
    by (apply Z.pow_le_mono_r; lia).
  lia.
Qed.

Lemma iter_xO_value p k : Z.pos (Pos.iter xO p k) = Z.pos p * 2 ^ Z.pos k.
Proof.
  induction k as [|k IH] using Pos.peano_ind.
  - simpl. lia.
  - rewrite Pos.iter_succ, Pos2Z.inj_succ, Z.pow_succ_r by lia.
    rewrite Pos2Z.inj_xO, IH. lia.
Qed.

Lemma iter_xO_digits p k :
  digits2_pos (Pos.iter xO p k) = (digits2_pos p + k)%positive.
Proof.
  induction k as [|k IH] using Pos.peano_ind.
  - simpl. lia.
  - rewrite Pos.iter_succ. simpl digits2_pos. rewrite IH. lia.
Qed.

(** A mantissa of exactly 53 bits with a small exponent is left alone by
    rounding. *)
Lemma binary_round_aux_canonical s m e :
  digits2_pos m = 53%positive -> -1074 <= e <= 971 ->
  binary_round_aux prec emax s (Z.pos m) e loc_Exact = S754_finite s m e.
Proof.
  intros Hd He.
  assert (Hshr : shr_fexp prec emax (Z.pos m) e loc_Exact
                 = ({| shr_m := Z.pos m; shr_r := false; shr_s := false |}, e)).
  { unfold shr_fexp, shr, fexp, emin, prec, emax. simpl Zdigits2. rewrite Hd.
    replace (Z.max (53 + e - 53) (3 - 1024 - 53) - e) with 0 by lia.
    reflexivity. }
  unfold binary_round_aux. rewrite Hshr.
  cbn [shr_m loc_of_shr_record round_nearest_even]. rewrite Hshr.
  cbn [shr_m]. unfold prec, emax.
  destruct (Z.leb_spec e (1024 - 53)); [done|lia].
Qed.

Lemma of_Z_pos_exact p :
  Z.pos p < 2 ^ 53 ->
  exists m e, of_Z (Z.pos p) = S754_finite false m e
              /\ e <= 0 /\ Z.pos m = Z.pos p * 2 ^ (- e).
Proof.
  intros Hp.
  pose proof (digits2_pos_le p 53 ltac:(lia) Hp) as Hd.
  unfold of_Z, binary_normalize, binary_round.
  assert (Hfexp : fexp prec emax (Z.pos (digits2_pos p) + 0)
                  = Z.pos (digits2_pos p) - 53)
    by (unfold fexp, emin, prec, emax; lia).
  rewrite Hfexp. unfold shl_align.
  destruct (Z.pos (digits2_pos p) - 53 - 0) as [|k|k] eqn:Hk; [|lia|].
  - exists p, 0. split; [|split; [lia|simpl; lia]].
    apply binary_round_aux_canonical; [lia|lia].
  - exists (Pos.iter xO p k), (Z.pos (digits2_pos p) - 53).
    split; [|split; [lia|]].
    + apply binary_round_aux_canonical; [rewrite iter_xO_digits; lia|lia].
    + rewrite iter_xO_value. f_equal. f_equal. lia.
Qed.

Lemma to_Z_scaled s m e v :
  e <= 0 -> Z.pos m = v * 2 ^ (- e) ->
  to_Z (S754_finite s m e) = Some (cond_Zopp s v).
Proof.
  intros He Hm. unfold to_Z.
  destruct (Z.leb_spec 0 e).
  - replace e with 0 in * by lia. simpl in Hm. do 2 f_equal. lia.
  - assert (0 < 2 ^ (- e)) by (apply Z.pow_pos_nonneg; lia).
    rewrite Hm, Z.mod_mul, Z.eqb_refl, Z.div_mul by lia. done.
Qed.

Lemma to_Z_of_Z z : 0 <= z <= 2 ^ 53 -> to_Z (of_Z z) = Some z.
Proof.
  intros Hz. destruct (Z.eq_dec z (2 ^ 53)) as [->|Hne]; [by vm_compute|].
  destruct z as [|p|p]; [done| |lia].
  destruct (of_Z_pos_exact p) as (m & e & -> & He & Hm); [lia|].
  by rewrite (to_Z_scaled false m e (Z.pos p)).
Qed.


(** [==] on finite floats of one sign decides equality of representations. *)
Lemma eqb_finite_eq s m1 e1 m2 e2 :
  eqb (S754_finite s m1 e1) (S754_finite s m2 e2) = true ->
  m1 = m2 /\ e1 = e2.
Proof.
  unfold eqb, SFeqb, SFcompare.
  change (Pos.compare_cont Eq m1 m2) with (Pos.compare m1 m2).
  destruct s; destruct (Z.compare_spec e1 e2); try done;
    destruct (Pos.compare_spec m1 m2); done.
Qed.
End Binary64.

(* ================================================================== *)
(** * Cohort identifiers *)
(* ================================================================== *)

Section Identifiers.
Import PyFloat PyFormat.

Lemma of_string_digits s z :
  parse_nat s = Some z -> of_string s = Return (of_Z z).
Proof.
  intros H. destruct s as [|c s']; [done|]. unfold of_string.
  destruct (Ascii.eqb_spec c "-") as [->|_]; [done|]. by rewrite H.
Qed.

Lemma of_string_minus s z :
  parse_nat s = Some z -> of_string (String "-" s) = Return (SFopp (of_Z z)).
Proof. intros H. unfold of_string. simpl Ascii.eqb. by rewrite H. Qed.

Lemma parse_nat_digits s :
  s <> EmptyString -> parse_nat s = parse_digits 0 s.
Proof. by destruct s. Qed.

Lemma parse_format_0d w z :
  0 <= z -> parse_digits 0 (format_0d w z) = Some z.
Proof.
  intros Hz. unfold format_0d. destruct (Z.ltb_spec z 0); [lia|].
  rewrite parse_digits_app, parse_digits_zeros, parse_digits_digits.
  f_equal. lia.
Qed.

Lemma length_format_0d_4 t :
  0 <= t <= 9999 -> String.length (format_0d 4 t) = 4%nat.
Proof.
  intros Ht.
  assert (Hall : forallb
                   (fun k => Nat.eqb (String.length (format_0d 4 (Z.of_nat k))) 4)
                   (seq 0 (Z.to_nat 10000)) = true) by (vm_compute; reflexivity).
  rewrite forallb_forall in Hall. specialize (Hall (Z.to_nat t)).
  rewrite Z2Nat.id in Hall by lia. apply Nat.eqb_eq, Hall, in_seq. lia.
Qed.

Lemma length_format_0d_3 i :
  (i <= 999)%nat -> String.length (format_0d 3 (Z.of_nat i)) = 3%nat.
Proof.
  intros Hi.
  assert (Hall : forallb
                   (fun k => Nat.eqb (String.length (format_0d 3 (Z.of_nat k))) 3)
                   (seq 0 (Z.to_nat 1000)) = true) by (vm_compute; reflexivity).
  rewrite forallb_forall in Hall.
  apply Nat.eqb_eq, Hall, in_seq. lia.
Qed.

Lemma parse_id_digits meta_run i :
  0 <= task_id meta_run ->
  parse_nat (id_digits meta_run i) = Some (id_magnitude meta_run i).
Proof.
  intros Ht. unfold id_digits, id_magnitude.
  rewrite parse_nat_digits.
  2:{ pose proof (digits_nonempty (Z.abs_N (node_id meta_run))).
      destruct (digits _); done. }
  rewrite parse_digits_app, parse_digits_digits.
  erewrite parse_digits_shift.
  2:{ rewrite parse_digits_app, parse_format_0d by done.
      apply parse_digits_shift, parse_format_0d. lia. }
  f_equal. rewrite length_append, Nat2Z.inj_add, Z.pow_add_r by lia.
  rewrite N2Z.inj_abs_N. lia.
Qed.

Lemma cohort_id_text_sign meta_run i :
  cohort_id_text meta_run i
  = if node_id meta_run <? 0 then String "-" (id_digits meta_run i)
    else id_digits meta_run i.
Proof.
  unfold cohort_id_text, id_digits, str_int.
  by destruct (node_id meta_run <? 0).
Qed.

Lemma cohort_id_value meta_run i :
  0 <= task_id meta_run ->
  cohort_id meta_run i
  = Return (if node_id meta_run <? 0
            then SFopp (of_Z (id_magnitude meta_run i))
            else of_Z (id_magnitude meta_run i)).
Proof.
  intros Ht. unfold cohort_id. rewrite cohort_id_text_sign.
  pose proof (parse_id_digits meta_run i Ht) as Hp.
  destruct (node_id meta_run <? 0).
  - by apply of_string_minus.
  - by apply of_string_digits.
Qed.

Lemma id_magnitude_in_range meta_run i :
  0 <= task_id meta_run <= 9999 -> (i <= 999)%nat ->
  id_magnitude meta_run i
  = Z.abs (node_id meta_run) * 10000000 + task_id meta_run * 1000 + Z.of_nat i.
Proof.
  intros Ht Hi. unfold id_magnitude.
  rewrite length_format_0d_4, length_format_0d_3 by done. done.
Qed.

Lemma result_map_lookup {A B} (f : A -> result B) l :
  (forall x, x ∈ l -> exists y, f x = Return y) ->
  exists ys, result_map f l = Return ys /\ length ys = length l
    /\ forall i x, l !! i = Some x -> exists y, f x = Return y /\ ys !! i = Some y.
Proof.
  induction l as [|a l IH]; intros Hf.
  - exists []. split; [done|]. split; [done|]. intros i x. by rewrite lookup_nil.
  - destruct (Hf a) as [y Hy]; [left|].
    destruct IH as (ys & Hys & Hlen & Hlook).
    { intros x Hx. apply Hf. by right. }
    exists (y :: ys). simpl. rewrite Hy. simpl. rewrite Hys. simpl.
    split; [done|]. split; [by rewrite Hlen|].
    intros [|i] x; simpl; [intros [= <-]; eauto|apply Hlook].
Qed.

Lemma cohort_ids_spec meta_run n :
  0 <= task_id meta_run ->
  exists ids, cohort_ids meta_run n = Return ids /\ length ids = n
    /\ forall i, (i < n)%nat ->
         exists x, cohort_id meta_run i = Return x /\ ids !! i = Some x.
Proof.
  intros Ht. unfold cohort_ids.
  destruct (result_map_lookup (cohort_id meta_run) (seq 0 n))
    as (ids & Hids & Hlen & Hlook).
  { intros i _. rewrite cohort_id_value by done. eauto. }
  exists ids. split; [done|]. rewrite length_seq in Hlen. split; [done|].
  intros i Hi. destruct (Hlook i i) as (y & Hy & Hyi).
  { by apply lookup_seq. }
  eauto.
Qed.
Lemma SFopp_binary_round p e :
  SFopp (binary_round prec emax false p e) = binary_round prec emax true p e.
Proof.
  unfold binary_round, binary_round_aux.
  destruct (shl_align _ _ _) as [mz ez].
  destruct (shr_fexp _ _ _ _ _) as [mrs e'].
  destruct (shr_fexp _ _ _ _ _) as [mrs' e''].
  destruct (shr_m mrs'); try done. by destruct (_ <=? _).
Qed.

Lemma SFopp_of_Z z : 0 < z -> SFopp (of_Z z) = of_Z (- z).
Proof. destruct z; try lia. intros _. apply SFopp_binary_round. Qed.

Lemma id_magnitude_pos meta_run i :
  0 <= task_id meta_run -> node_id meta_run < 0 -> 0 < id_magnitude meta_run i.
Proof.
  intros Ht Hn. unfold id_magnitude.
  match goal with |- context [10 ^ (?a + ?b)] =>
    assert (0 < 10 ^ (a + b)) by (apply Z.pow_pos_nonneg; lia);
    assert (0 < 10 ^ b) by (apply Z.pow_pos_nonneg; lia)
  end. nia.
Qed.

Lemma cohort_id_number meta_run i :
  0 <= task_id meta_run ->
  cohort_id meta_run i = Return (of_Z (concatenated_number meta_run i)).
Proof.
  intros Ht. rewrite cohort_id_value by done. unfold concatenated_number.
  destruct (Z.ltb_spec (node_id meta_run) 0); [|done].
  by rewrite SFopp_of_Z by by apply id_magnitude_pos.
Qed.

Lemma of_Z_eqb_inj z1 z2 :
  0 < z1 < 2 ^ 53 -> 0 < z2 < 2 ^ 53 ->
  eqb (of_Z z1) (of_Z z2) = true -> z1 = z2.
Proof.
  intros H1 H2. destruct z1 as [|p1|p1], z2 as [|p2|p2]; try lia.
  destruct (of_Z_pos_exact p1) as (m1 & e1 & -> & He1 & Hm1); [lia|].
  destruct (of_Z_pos_exact p2) as (m2 & e2 & -> & He2 & Hm2); [lia|].
  intros [-> ->]%eqb_finite_eq.
  assert (0 < 2 ^ (- e2)) by (apply Z.pow_pos_nonneg; lia). nia.
Qed.

End Identifiers.

(** C3.  Whenever the task identifier is not negative, the worker derives
    [n] identifiers, and the one at index [i] is the float nearest to the
    single number whose decimal digits are the node identifier, the task
    identifier zero-padded to four digits and [i] zero-padded to three; for
    a node identifier that is not negative, a task identifier up to 9999 and
    an index up to 999 that number is [node * 10^7 + task * 10^3 + i].  For
    node 12, task 34 and two definitions the texts are 120034000 and
    120034001, the identifiers are the floats 120034000.0 and 120034001.0,
    and the table namespace key is cohort_34_12. *)
Theorem cohort_ids_concatenate_digits :
  (forall meta_run n,
     0 <= task_id meta_run ->
     exists ids,
       cohort_ids meta_run n = Return ids /\ length ids = n /\
       forall i, (i < n)%nat ->
         PyFloat.of_string (cohort_id_text meta_run i)
           = Return (PyFloat.of_Z (concatenated_number meta_run i))
         /\ ids !! i = Some (PyFloat.of_Z (concatenated_number meta_run i)))
  /\ (forall meta_run i,
        0 <= node_id meta_run -> 0 <= task_id meta_run <= 9999 -> (i <= 999)%nat ->
        concatenated_number meta_run i
        = node_id meta_run * 10000000 + task_id meta_run * 1000 + Z.of_nat i)
  /\ cohort_id_text {| task_id := 34; node_id := 12 |} 0 = "120034000"%string
  /\ cohort_id_text {| task_id := 34; node_id := 12 |} 1 = "120034001"%string
  /\ cohort_ids {| task_id := 34; node_id := 12 |} 2
     = Return [PyFloat.of_Z 120034000; PyFloat.of_Z 120034001]
  /\ PyFloat.to_Z (PyFloat.of_Z 120034000) = Some 120034000
  /\ PyFloat.to_Z (PyFloat.of_Z 120034001) = Some 120034001
  /\ cohort_table_name {| task_id := 34; node_id := 12 |} = "cohort_34_12"%string.
Proof.
  split; [|split].
  - intros meta_run n Ht.
    destruct (cohort_ids_spec meta_run n Ht) as (ids & Hids & Hlen & Hlook).
    exists ids. split; [done|]. split; [done|]. intros i Hi.
    destruct (Hlook i Hi) as (x & Hx & Hxi).
    rewrite cohort_id_number in Hx by done. injection Hx as <-.
    split; [|done]. by apply cohort_id_number.
  - intros meta_run i Hn Ht Hi. unfold concatenated_number.
    destruct (Z.ltb_spec (node_id meta_run) 0); [lia|].
    rewrite id_magnitude_in_range by done. lia.
  - repeat split; vm_compute; reflexivity.
Qed.

Lemma cohort_ids_concatenate_digits_witness :
  exists ids,
    cohort_ids {| task_id := 34; node_id := 12 |} 2 = Return ids /\ length ids = 2%nat /\
    forall i, (i < 2)%nat ->
      PyFloat.of_string (cohort_id_text {| task_id := 34; node_id := 12 |} i)
        = Return (PyFloat.of_Z
                    (concatenated_number {| task_id := 34; node_id := 12 |} i))
      /\ ids !! i = Some (PyFloat.of_Z
                             (concatenated_number {| task_id := 34; node_id := 12 |} i)).
Proof.
  apply (proj1 cohort_ids_concatenate_digits {| task_id := 34; node_id := 12 |} 2%nat).
  simpl. lia.
Defined.

(** C4.  Under node identifier 7, task identifiers in [0, 9999] and indices in
    [0, 999] always yield an identifier, and two identifiers that are equal
    (as values, or under Python's [==]) come from the same task identifier
    and the same index. *)
Theorem cohort_id_injective_node_7 t1 t2 (i1 i2 : nat) :
  0 <= t1 <= 9999 -> 0 <= t2 <= 9999 -> (i1 <= 999)%nat -> (i2 <= 999)%nat ->
  exists x1 x2,
    cohort_id {| task_id := t1; node_id := 7 |} i1 = Return x1 /\
    cohort_id {| task_id := t2; node_id := 7 |} i2 = Return x2 /\
    (x1 = x2 \/ PyFloat.eqb x1 x2 = true -> t1 = t2 /\ i1 = i2).
Proof.
  intros Ht1 Ht2 Hi1 Hi2.
  set (m1 := {| task_id := t1; node_id := 7 |}).
  set (m2 := {| task_id := t2; node_id := 7 |}).
  exists (PyFloat.of_Z (id_magnitude m1 i1)), (PyFloat.of_Z (id_magnitude m2 i2)).
  split; [by rewrite cohort_id_value by (simpl; lia)|].
  split; [by rewrite cohort_id_value by (simpl; lia)|].
  assert (E1 : id_magnitude m1 i1 = 70000000 + t1 * 1000 + Z.of_nat i1)
    by (rewrite id_magnitude_in_range by done; simpl; lia).
  assert (E2 : id_magnitude m2 i2 = 70000000 + t2 * 1000 + Z.of_nat i2)
    by (rewrite id_magnitude_in_range by done; simpl; lia).
  rewrite E1, E2.
  assert (Hinj : 70000000 + t1 * 1000 + Z.of_nat i1
                 = 70000000 + t2 * 1000 + Z.of_nat i2 -> t1 = t2 /\ i1 = i2) by lia.
  intros [Heq|Heq]; apply Hinj.
  - assert (Some (70000000 + t1 * 1000 + Z.of_nat i1)
            = Some (70000000 + t2 * 1000 + Z.of_nat i2)) as [=]; [|done].
    rewrite <- !to_Z_of_Z by lia. by rewrite Heq.
  - apply of_Z_eqb_inj; [lia..|done].
Qed.

Lemma cohort_id_injective_node_7_witness :
  exists x1 x2,
    cohort_id {| task_id := 1; node_id := 7 |} 3 = Return x1 /\
    cohort_id {| task_id := 2; node_id := 7 |} 4 = Return x2 /\
    (x1 = x2 \/ PyFloat.eqb x1 x2 = true -> 1 = 2 /\ 3%nat = 4%nat).
Proof.
  apply (cohort_id_injective_node_7 1 2 3 4); lia.
Defined.




(* ================================================================== *)
(** * Running computations step by step *)
(* ================================================================== *)

Section Steps.
Context {World Event : Type}.
Abbreviation St := (state World Event).

Lemma bind_call {A B} ev (f : World -> result A * World) (k : A -> M St B) st :
  (call ev f ≫= k) st
  = match f (world st) with
    | (Return a, w) => k a {| world := w; trace := trace st ++ [ev] |}
    | (Raise e, w) => (Raise e, {| world := w; trace := trace st ++ [ev] |})
    end.
Proof.
  unfold mbind, M_bind, call. by destruct (f (world st)) as [[e|a] w].
Qed.

Lemma bind_emit {B} ev (k : unit -> M St B) st :
  (emit ev ≫= k) st = k tt {| world := world st; trace := trace st ++ [ev] |}.
Proof. unfold emit. by rewrite bind_call. Qed.

Lemma bind_lift {A B} (r : result A) (k : A -> M St B) st :
  (lift r ≫= k) st
  = match r with
    | Return a => k a st
    | Raise e => (Raise e, st)
    end.
Proof. unfold mbind, M_bind, lift. by destruct r. Qed.

Lemma bind_run {A B} (m : M St A) (k : A -> M St B) st :
  (m ≫= k) st
  = match m st with
    | (Return a, st') => k a st'
    | (Raise e, st') => (Raise e, st')
    end.
Proof. unfold mbind, M_bind. by destruct (m st) as [[e|a] st']. Qed.
End Steps.

Section CentralFacts.
Import Central.
Context {World : Type} `{client : AlgorithmClient World}.

Lemma request_and_wait_creates_one_task defs names tcs ds ids
    (st : state World event) :
  List.filter is_task_create (trace (request_and_wait defs names tcs ds ids st).2)
  = List.filter is_task_create (trace st)
    ++ [TaskCreate (task_input defs names tcs ds) ids].
Proof.
  unfold request_and_wait, info.
  rewrite bind_emit, bind_call.
  destruct (task_create _ _ _) as [[e|task] w]; cbv beta iota.
  { by trace_filter. }
  rewrite !bind_emit, bind_lift.
  destruct (task !! "id"%string) as [id|]; cbv beta iota.
  2: { by trace_filter. }
  rewrite bind_call.
  destruct (wait_for_results _ _) as [[e|res] w']; cbv beta iota.
  { by trace_filter. }
  rewrite bind_emit. by trace_filter.
Qed.

Lemma central_unfold defs names tcs ds o (st : state World event) :
  central defs names tcs ds o st
  = let sel := default (SelStr "ALL") o in
    let st0 := {| world := world st;
                  trace := trace st
                    ++ [Info (Text "Collecting participating organizations")] |} in
    match organization_list (world st) with
    | (Raise e, w) =>
        (Raise e, {| world := w; trace := trace st0 ++ [OrganizationList] |})
    | (Return orgs, w) =>
        let st1 := {| world := w; trace := trace st0 ++ [OrganizationList] |} in
        if ne_ALL sel then
          if negb (issubset (py_set sel) (py_set (SelList (map org_id orgs))))
          then (Return not_in_collaboration, st1)
          else request_and_wait defs names tcs ds sel st1
        else request_and_wait defs names tcs ds (SelList (map org_id orgs)) st1
    end.
Proof.
  unfold central, info. rewrite bind_emit, bind_call. cbv zeta.
  cbn [world trace].
  destruct (organization_list (world st)) as [[e|orgs] w]; [done|].
  destruct (ne_ALL _); [|done]. by destruct (negb _).
Qed.

Lemma ne_ALL_false sel : ne_ALL sel = false <-> sel = SelStr "ALL".
Proof.
  destruct sel as [s|l]; simpl; [|done].
  rewrite negb_false_iff, String.eqb_eq. split; [by intros ->|by intros [= ->]].
Qed.
End CentralFacts.

(* ================================================================== *)
(** * The orchestrator *)
(* ================================================================== *)

Section CentralTheorems.
Import Central.
Context {World : Type} `{client : AlgorithmClient World}.
Implicit Types (st : state World event) (sel : selector).

(** C1.  When the server lists the organizations and the selector is the
    sentinel or a subset of the listed identifiers, [central] makes exactly
    one task-creation call, whatever happens afterwards; its target is the
    full list of identifiers for the sentinel and the selector itself
    otherwise, its method is "cohort_diagnostics", and its kwargs are the
    four inputs under their own names, unchanged. *)
Theorem central_dispatches_one_task
    (cohort_definitions cohort_names temporal_covariate_settings
     diagnostics_settings : json) sel st orgs w :
  organization_list (world st) = (Return orgs, w) ->
  sel = SelStr "ALL" \/ py_set sel ⊆ list_to_set (map org_id orgs) ->
  List.filter is_task_create
    (trace (central cohort_definitions cohort_names temporal_covariate_settings
              diagnostics_settings (Some sel) st).2)
  = List.filter is_task_create (trace st) ++
    [TaskCreate
       (JDict [("method", JStr "cohort_diagnostics");
               ("kwargs", JDict [
                  ("cohort_definitions", cohort_definitions);
                  ("cohort_names", cohort_names);
                  ("temporal_covariate_settings", temporal_covariate_settings);
                  ("diagnostics_settings", diagnostics_settings)])]%string)
       (if decide (sel = SelStr "ALL") then SelList (map org_id orgs) else sel)].
Proof.
  intros Horgs Hsel. rewrite central_unfold, Horgs. cbv zeta.
  cbn [default from_option id world trace].
  destruct (ne_ALL sel) eqn:Hne.
  - assert (sel <> SelStr "ALL") as Hne'
      by (intros ?%ne_ALL_false; congruence).
    destruct Hsel as [?|Hsub]; [done|].
    unfold issubset. rewrite bool_decide_eq_true_2 by done. cbn [negb]; cbv iota.
    rewrite request_and_wait_creates_one_task. trace_filter.
    by rewrite decide_False.
  - apply ne_ALL_false in Hne as ->. cbv iota.
    rewrite request_and_wait_creates_one_task. trace_filter.
    done.
Qed.

(** C2.  When the server lists the organizations and the selector is neither
    the sentinel nor a subset of the listed identifiers, [central] returns
    the message dict, after the opening notification and the listing call
    only: no task is created and nothing is waited for. *)
Theorem central_rejects_unknown_organization
    (cohort_definitions cohort_names temporal_covariate_settings
     diagnostics_settings : json) sel st orgs w :
  organization_list (world st) = (Return orgs, w) ->
  sel <> SelStr "ALL" ->
  ~ py_set sel ⊆ list_to_set (map org_id orgs) ->
  central cohort_definitions cohort_names temporal_covariate_settings
    diagnostics_settings (Some sel) st
  = (Return (JDict [("msg", JStr
       "You specified an organization that is not part of the collaboration")]%string),
     {| world := w;
        trace := trace st ++
          [Info (Text "Collecting participating organizations"); OrganizationList] |})
  /\ List.filter is_task_create
       (trace (central cohort_definitions cohort_names temporal_covariate_settings
                 diagnostics_settings (Some sel) st).2)
     = List.filter is_task_create (trace st)
  /\ List.filter is_wait
       (trace (central cohort_definitions cohort_names temporal_covariate_settings
                 diagnostics_settings (Some sel) st).2)
     = List.filter is_wait (trace st).
Proof.
  intros Horgs Hne Hsub.
  assert (Hrun : central cohort_definitions cohort_names temporal_covariate_settings
            diagnostics_settings (Some sel) st
          = (Return not_in_collaboration,
             {| world := w;
                trace := trace st ++
                  [Info (Text "Collecting participating organizations");
                   OrganizationList] |})).
  { rewrite central_unfold, Horgs. cbv zeta.
    cbn [default from_option id world trace].
    destruct (ne_ALL sel) eqn:Hall; [|by apply ne_ALL_false in Hall].
    unfold issubset. rewrite bool_decide_eq_false_2 by done. cbn [negb]; cbv iota.
    by rewrite <- app_assoc. }
  rewrite Hrun. split; [done|]. split; by trace_filter.
Qed.

(** C10.  The sentinel is the string "ALL" and nothing else: leaving the
    argument out is passing "ALL", "ALL" addresses every listed
    organization, and any other string goes through the subset check as the
    collection of its characters (it is itself the target when the check
    passes, and the message dict is returned when it fails).  With integer
    organization identifiers, "all" yields the message dict and no task. *)
Theorem sentinel_is_exactly_ALL
    (cohort_definitions cohort_names temporal_covariate_settings
     diagnostics_settings : json) st orgs w :
  organization_list (world st) = (Return orgs, w) ->
  let run := central cohort_definitions cohort_names temporal_covariate_settings
               diagnostics_settings in
  let input_ := task_input cohort_definitions cohort_names
                  temporal_covariate_settings diagnostics_settings in
  let listed := {| world := w;
                   trace := trace st ++
                     [Info (Text "Collecting participating organizations");
                      OrganizationList] |} in
  (* leaving the argument out is passing "ALL" *)
  run None st = run (Some (SelStr "ALL")) st
  (* "ALL" addresses every listed organization *)
  /\ List.filter is_task_create (trace (run (Some (SelStr "ALL")) st).2)
     = List.filter is_task_create (trace st)
       ++ [TaskCreate input_ (SelList (map org_id orgs))]
  (* any other string is checked as a collection of its characters, and is
     itself the target when the check passes *)
  /\ (forall s, s <> "ALL"%string ->
        if bool_decide (list_to_set (chars s) ⊆
                        (list_to_set (map org_id orgs) : gset atom))
        then List.filter is_task_create (trace (run (Some (SelStr s)) st).2)
             = List.filter is_task_create (trace st)
               ++ [TaskCreate input_ (SelStr s)]
        else run (Some (SelStr s)) st = (Return not_in_collaboration, listed))
  (* "all" is not the sentinel *)
  /\ (Forall (fun o => exists z, org_id o = AInt z) orgs ->
      run (Some (SelStr "all")) st = (Return not_in_collaboration, listed)).
Proof.
  intros Horgs run input_ listed. subst run input_ listed.
  split; [done|]. split; [|split].
  - rewrite central_unfold, Horgs. cbv zeta.
    cbn [default from_option id world trace]. simpl ne_ALL. cbv iota.
    rewrite request_and_wait_creates_one_task. by trace_filter.
  - intros s Hs. rewrite central_unfold, Horgs. cbv zeta.
    cbn [default from_option id world trace].
    assert (ne_ALL (SelStr s) = true) as ->.
    { destruct (ne_ALL (SelStr s)) eqn:Hall; [done|].
      apply ne_ALL_false in Hall. congruence. }
    unfold issubset. cbn [py_set].
    destruct (bool_decide _); cbn [negb]; cbv iota.
    + rewrite request_and_wait_creates_one_task. by trace_filter.
    + by rewrite <- app_assoc.
  - intros Hints. rewrite central_unfold, Horgs. cbv zeta.
    cbn [default from_option id world trace].
    change (ne_ALL (SelStr "all")) with true. cbv iota.
    unfold issubset.
    rewrite bool_decide_eq_false_2;
      [cbn [negb]; cbv iota; by rewrite <- app_assoc|].
    intros Hsub. cbn [py_set] in Hsub.
    assert (AStr "a" ∈ (list_to_set (map org_id orgs) : gset atom)) as Hin.
    { apply Hsub. simpl. set_solver. }
    apply elem_of_list_to_set, list_elem_of_fmap in Hin as (o & Ho & Hin).
    rewrite Forall_forall in Hints. destruct (Hints o Hin) as [z Hz]. congruence.
Qed.
End CentralTheorems.

Section CentralWitnesses.
Import Central SampleCollaboration.

Lemma central_dispatches_one_task_witness :
  List.filter is_task_create
    (trace (central (client := client) no_definitions no_definitions
              no_settings no_settings (Some (SelList [AInt 1; AInt 3]))
              start).2)
  = [TaskCreate
       (JDict [("method", JStr "cohort_diagnostics");
               ("kwargs", JDict [
                  ("cohort_definitions", no_definitions);
                  ("cohort_names", no_definitions);
                  ("temporal_covariate_settings", no_settings);
                  ("diagnostics_settings", no_settings)])]%string)
       (SelList [AInt 1; AInt 3])].
Proof.
  apply (central_dispatches_one_task (client := client)
           no_definitions no_definitions no_settings no_settings
           (SelList [AInt 1; AInt 3]) start organizations tt).
  - reflexivity.
  - right. refine (bool_decide_eq_true_1 _ _). vm_compute. reflexivity.
Defined.

Lemma central_rejects_unknown_organization_witness :
  central (client := client) no_definitions no_definitions
    no_settings no_settings (Some (SelList [AInt 99])) start
  = (Return (JDict [("msg", JStr
       "You specified an organization that is not part of the collaboration")]%string),
     {| world := tt;
        trace := [Info (Text "Collecting participating organizations");
                  OrganizationList] |}).
Proof.
  apply (central_rejects_unknown_organization (client := client)
           no_definitions no_definitions no_settings no_settings
           (SelList [AInt 99]) start organizations tt).
  - reflexivity.
  - discriminate.
  - refine (bool_decide_eq_false_1 _ _). vm_compute. reflexivity.
Defined.

Lemma sentinel_is_exactly_ALL_witness :
  central (client := client) no_definitions no_definitions
    no_settings no_settings (Some (SelStr "all")) start
  = (Return not_in_collaboration,
     {| world := tt;
        trace := [Info (Text "Collecting participating organizations");
                  OrganizationList] |}).
Proof.
  apply (sentinel_is_exactly_ALL (client := client)
           no_definitions no_definitions no_settings no_settings
           start organizations tt eq_refl).
  repeat constructor; eexists; reflexivity.
Defined.
End CentralWitnesses.

(* ================================================================== *)
(** * Events a computation does not record *)
(* ================================================================== *)

Section Quiet.
Context {World Event : Type}.
Abbreviation St := (state World Event).
Implicit Types (P : Event -> bool) (ev : Event).

Lemma quiet_ret P {A} (a : A) : quiet P (mret a : M St A).
Proof. done. Qed.

Lemma quiet_lift P {A} (r : result A) : quiet P (lift r : M St A).
Proof. done. Qed.

Lemma quiet_call P {A} ev (f : World -> result A * World) :
  P ev = false -> quiet P (call ev f).
Proof.
  intros Hev st. unfold call. destruct (f (world st)) as [r w]. simpl.
  rewrite List.filter_app. simpl. rewrite Hev. apply app_nil_r.
Qed.

Lemma quiet_emit P ev : P ev = false -> quiet P (emit ev : M St unit).
Proof. apply quiet_call. Qed.

Lemma quiet_bind P {A B} (m : M St A) (k : A -> M St B) :
  quiet P m -> (forall a, quiet P (k a)) -> quiet P (m ≫= k).
Proof.
  intros Hm Hk st. rewrite bind_run. specialize (Hm st).
  destruct (m st) as [[e|a] st']; [done|]. by rewrite Hk.
Qed.

Lemma quiet_M_map P {A B} (f : A -> M St B) l :
  (forall x, quiet P (f x)) -> quiet P (M_map f l).
Proof.
  intros Hf. induction l as [|x l IH]; simpl; [apply quiet_ret|].
  apply quiet_bind; [done|]. intros y.
  apply quiet_bind; [done|]. intros ys. apply quiet_ret.
Qed.

Lemma result_map_length {A B} (f : A -> result B) l ys :
  result_map f l = Return ys -> length ys = length l.
Proof.
  revert ys. induction l as [|x l IH]; intros ys; simpl; [by intros [= <-]|].
  destruct (f x) as [e|y]; [done|]. simpl.
  destruct (result_map f l) as [e|ys']; [done|]. simpl.
  intros [= <-]. simpl. by rewrite (IH ys').
Qed.

(** A comprehension over a computation whose value does not depend on the
    state computes the pure comprehension. *)
Lemma M_map_value {A B} (f : A -> M St B) (g : A -> result B) l st :
  (forall x st, (f x st).1 = g x) -> (M_map f l st).1 = result_map g l.
Proof.
  intros Hf. revert st. induction l as [|x l IH]; intros st; simpl; [done|].
  rewrite bind_run. specialize (Hf x st).
  destruct (f x st) as [[e|y] st']; simpl in Hf; rewrite <- Hf; [done|].
  simpl. rewrite bind_run. specialize (IH st').
  destruct (M_map f l st') as [[e|ys] st'']; simpl in IH; by rewrite <- IH.
Qed.
End Quiet.

(* ================================================================== *)
(** * The participant worker *)
(* ================================================================== *)

Section WorkerFacts.
Import Worker.
Context {Expression Options : Type} `{circe : Circe Expression Options}.
Context {World Connection RObject Frame : Type}
        `{ohdsi : Ohdsi World Connection RObject Frame}.
Implicit Types (st : state World (event (Expression:=Expression)
                    (Options:=Options) (Connection:=Connection) (RObject:=RObject))).

Lemma create_cohort_query_value d st :
  (_create_cohort_query d st).1 = cohort_query d.
Proof.
  unfold _create_cohort_query, cohort_query, call_pure.
  rewrite bind_call.
  destruct (cohort_expression_from_json d) as [e|expr]; [done|].
  cbv beta iota. rewrite bind_call. cbv beta iota. rewrite bind_call. simpl.
  by destruct (build_cohort_query _ _).
Qed.

Lemma create_cohort_query_quiet P d :
  (forall ev, P ev = true -> is_database_call ev = true \/ is_read_csv ev = true) ->
  quiet P (_create_cohort_query (World:=World) (Connection:=Connection)
             (RObject:=RObject) d).
Proof.
  intros HP. unfold _create_cohort_query, call_pure.
  assert (Hev : forall ev, is_database_call ev = false -> is_read_csv ev = false
                           -> P ev = false).
  { intros ev H1 H2. destruct (P ev) eqn:E; [|done]. destruct (HP _ E); congruence. }
  repeat first
    [ apply quiet_bind; [|intros ?]
    | apply quiet_call; by apply Hev
    | apply quiet_lift ].
Qed.

Lemma build_quiet P meta_run defs names :
  (forall ev, P ev = true -> is_database_call ev = true \/ is_read_csv ev = true) ->
  quiet P (build_cohort_definition_set (World:=World) (Connection:=Connection)
             (RObject:=RObject) meta_run defs names).
Proof.
  intros HP. unfold build_cohort_definition_set, info.
  assert (Hev : forall ev, is_database_call ev = false -> is_read_csv ev = false
                           -> P ev = false).
  { intros ev H1 H2. destruct (P ev) eqn:E; [|done]. destruct (HP _ E); congruence. }
  repeat first
    [ apply quiet_bind; [|intros ?]
    | apply quiet_emit; by apply Hev
    | apply quiet_M_map; intros ?; by apply create_cohort_query_quiet
    | apply quiet_lift
    | apply quiet_ret ].
Qed.

Lemma run_diagnostics_quiet conn meta_omop meta_run defs names tcs ds :
  quiet is_read_csv
    (run_diagnostics conn meta_omop meta_run defs names tcs ds).
Proof.
  unfold run_diagnostics, info.
  apply quiet_bind; [apply build_quiet; intros ev Hev; by right|intros df].
  repeat first
    [ apply quiet_bind; [|intros ?]
    | apply quiet_call; reflexivity
    | apply quiet_emit; reflexivity
    | apply quiet_lift
    | progress cbv zeta ].
Qed.

Lemma rows_lookup ids names defs sqls logic stats i x nm d q l g :
  ids !! i = Some x -> names !! i = Some nm -> defs !! i = Some d ->
  sqls !! i = Some q -> logic !! i = Some l -> stats !! i = Some g ->
  rows ids names defs sqls logic stats !! i
  = Some {| cohortId := x; cohortName := nm; json_ := d; sql := q;
            logicDescription := l; generateStats := g |}.
Proof.
  revert names defs sqls logic stats i.
  induction ids as [|x0 ids IH];
    intros [|nm0 names] [|d0 defs] [|q0 sqls] [|l0 logic] [|g0 stats] [|i];
    simpl; try done.
  - by intros [= ->] [= ->] [= ->] [= ->] [= ->] [= ->].
  - apply IH.
Qed.

Lemma rows_length ids names defs sqls logic stats n :
  length ids = n -> length names = n -> length defs = n ->
  length sqls = n -> length logic = n -> length stats = n ->
  length (rows ids names defs sqls logic stats) = n.
Proof.
  revert ids names defs sqls logic stats.
  induction n as [|n IH];
    intros [|x0 ids] [|nm0 names] [|d0 defs] [|q0 sqls] [|l0 logic] [|g0 stats];
    simpl; try done.
  intros [=] [=] [=] [=] [=] [=]. f_equal. by apply IH.
Qed.

Lemma DataFrame_mismatch ids names defs sqls logic stats :
  length names <> length ids ->
  DataFrame ids names defs sqls logic stats
  = Raise (ValueError "All arrays must be of the same length").
Proof.
  intros Hne. unfold DataFrame.
  destruct (Nat.eqb_spec (length names) (length ids)); done.
Qed.

Lemma DataFrame_rows ids names defs sqls logic stats :
  length names = length ids -> length defs = length ids ->
  length sqls = length ids -> length logic = length ids ->
  length stats = length ids ->
  DataFrame ids names defs sqls logic stats
  = Return (rows ids names defs sqls logic stats).
Proof.
  intros H1 H2 H3 H4 H5. unfold DataFrame.
  by rewrite H1, H2, H3, H4, H5, !Nat.eqb_refl.
Qed.

Lemma cohort_queries_defined defs :
  Forall (fun d => exists q, cohort_query d = Return q) defs ->
  exists qs, result_map cohort_query defs = Return qs /\ length qs = length defs
    /\ forall i d, defs !! i = Some d ->
         exists q, cohort_query d = Return q /\ qs !! i = Some q.
Proof.
  intros Hall. apply result_map_lookup. intros d Hd.
  rewrite Forall_forall in Hall. by apply Hall.
Qed.

(** The steps of [build_cohort_definition_set], one case per outcome. *)
Lemma build_unfold meta_run defs names st :
  build_cohort_definition_set meta_run defs names st
  = match cohort_ids meta_run (length defs) with
    | Raise e => (Raise e, st)
    | Return ids =>
        let st1 := {| world := world st;
                      trace := trace st ++ [Info (CohortIds ids)] |} in
        match M_map _create_cohort_query defs st1 with
        | (Raise e, st2) => (Raise e, st2)
        | (Return sqls, st2) =>
            match DataFrame ids names defs sqls
                    (replicate (length defs) None) (replicate (length defs) true) with
            | Raise e => (Raise e, st2)
            | Return df =>
                (Return df,
                 {| world := world st2;
                    trace := trace st2 ++
                      [Info (Text ("Generated "
                         +:+ PyFormat.str_int (Z.of_nat (length defs))
                         +:+ " cohort definitions"))] |})
            end
        end
    end.
Proof.
  unfold build_cohort_definition_set, info. rewrite bind_lift.
  destruct (cohort_ids _ _) as [e|ids]; [done|].
  rewrite bind_emit, bind_run. cbv zeta.
  destruct (M_map _ _ _) as [[e|sqls] st2]; [done|].
  rewrite bind_lift. destruct (DataFrame _ _ _ _ _ _) as [e|df]; [done|].
  by rewrite bind_emit.
Qed.
End WorkerFacts.

Section WorkerTheorems.
Import Worker.
Context {Expression Options : Type} `{circe : Circe Expression Options}.
Context {World Connection RObject Frame : Type}
        `{ohdsi : Ohdsi World Connection RObject Frame}.
Implicit Types (st : state World (event (Expression:=Expression)
                    (Options:=Options) (Connection:=Connection) (RObject:=RObject))).

(** C6.  With as many names as definitions, a task identifier that is not
    negative and definitions the query builder accepts, the worker builds
    one row per definition; row [i] pairs the identifier derived for [i],
    the [i]-th name, the [i]-th definition itself and the query the builder
    returns for it, with no logic description and [generateStats] true. *)
Theorem work_items_built meta_run
    (cohort_definitions : list json) (cohort_names : list string) st :
  length cohort_names = length cohort_definitions ->
  0 <= task_id meta_run ->
  Forall (fun d => exists q, cohort_query d = Return q) cohort_definitions ->
  exists df st',
    build_cohort_definition_set meta_run cohort_definitions cohort_names st
      = (Return df, st')
    /\ length df = length cohort_definitions
    /\ forall i d, cohort_definitions !! i = Some d ->
         exists x name q,
           cohort_id meta_run i = Return x
           /\ cohort_names !! i = Some name
           /\ (_create_cohort_query d st).1 = Return q
           /\ df !! i = Some {| cohortId := x; cohortName := name; json_ := d;
                                sql := q; logicDescription := None;
                                generateStats := true |}.
Proof.
  intros Hnames Htask Hvalid.
  set (n := length cohort_definitions).
  destruct (cohort_ids_spec meta_run n Htask) as (ids & Hids & Hlen & Hlook).
  destruct (cohort_queries_defined _ Hvalid) as (qs & Hqs & Hqlen & Hqlook).
  rewrite build_unfold. fold n. rewrite Hids. cbv zeta.
  match goal with |- context [M_map _create_cohort_query ?l ?s] =>
    pose proof (M_map_value _create_cohort_query cohort_query l s
                  create_cohort_query_value) as Hmap;
    destruct (M_map _create_cohort_query l s) as [r st2]
  end.
  simpl in Hmap. rewrite Hqs in Hmap. subst r.
  rewrite DataFrame_rows by (rewrite ?length_replicate; subst n; lia).
  eexists _, _. split; [done|]. split.
  { apply rows_length; rewrite ?length_replicate; subst n; lia. }
  intros i d Hd.
  assert (i < n)%nat as Hi by (apply lookup_lt_Some in Hd; done).
  destruct (Hlook i Hi) as (x & Hx & Hxi).
  destruct (lookup_lt_is_Some_2 cohort_names i) as [name Hname]; [lia|].
  destruct (Hqlook i d Hd) as (q & Hq & Hqi).
  exists x, name, q. rewrite create_cohort_query_value.
  repeat (split; [done|]).
  apply rows_lookup; try done; by apply lookup_replicate_2.
Qed.

(** C7.  Once the steps up to the diagnostics run have completed (the run
    is the last call recorded before the closing notification), the worker
    makes one more call, reading [exports/incidence_rate.csv] under the
    export folder: the only read of the whole invocation.  If the read
    returns a frame the worker returns [to_json] of it, and if it raises the
    worker raises the same. *)
Theorem worker_returns_incidence_rate conn meta_omop meta_run
    (cohort_definitions : list json) (cohort_names : list string)
    (temporal_covariate_settings diagnostics_settings : gmap string json)
    st st1 :
  run_diagnostics conn meta_omop meta_run cohort_definitions cohort_names
    temporal_covariate_settings diagnostics_settings st = (Return tt, st1) ->
  let path := export_folder meta_omop ++ ["exports"; "incidence_rate.csv"]%string in
  let run := cohort_diagnostics conn meta_omop meta_run cohort_definitions
               cohort_names temporal_covariate_settings diagnostics_settings st in
  (exists before args,
     trace st1 = before ++ [ExecuteDiagnostics args;
                            Info (Text "Executed diagnostics")])
  /\ List.filter is_read_csv (trace st1) = List.filter is_read_csv (trace st)
  /\ run = (match (read_csv path (world st1)).1 with
            | Return frame => Return (to_json frame)
            | Raise e => Raise e
            end,
            {| world := (read_csv path (world st1)).2;
               trace := trace st1 ++ [ReadCsv path] |})
  /\ List.filter is_read_csv (trace run.2)
     = List.filter is_read_csv (trace st) ++ [ReadCsv path].
Proof.
  intros Hrun path run.
  assert (Hquiet := run_diagnostics_quiet conn meta_omop meta_run
            cohort_definitions cohort_names temporal_covariate_settings
            diagnostics_settings st).
  rewrite Hrun in Hquiet. simpl in Hquiet.
  assert (Hret : run
    = (match (read_csv path (world st1)).1 with
       | Return frame => Return (to_json frame)
       | Raise e => Raise e
       end,
       {| world := (read_csv path (world st1)).2;
          trace := trace st1 ++ [ReadCsv path] |})).
  { subst run. unfold cohort_diagnostics. rewrite bind_run, Hrun, bind_call.
    unfold incidence_rate_csv, path_div. rewrite <- app_assoc. simpl. fold path.
    by destruct (read_csv path (world st1)) as [[e|frame] w]. }
  split; [|split; [done|split; [done|]]].
  - clear Hret Hquiet run. unfold run_diagnostics, info in Hrun.
    rewrite bind_run in Hrun.
    destruct (build_cohort_definition_set _ _ _ _) as [[e|df] st0]; [done|].
    rewrite bind_call in Hrun.
    destruct (get_cohort_table_names _ _) as [[e|names] w1]; [done|].
    rewrite !bind_emit, bind_call in Hrun. cbn [world trace] in Hrun.
    destruct (create_cohort_tables _ _ _ _) as [[e|[]] w2]; [done|].
    rewrite bind_emit, bind_call in Hrun. cbn [world trace] in Hrun.
    destruct (convert_to_r _ _) as [[e|rdf] w3]; [done|].
    rewrite bind_call in Hrun. cbn [world trace] in Hrun.
    destruct (generate_cohort_set _ _ _ _ _ _) as [[e|[]] w4]; [done|].
    rewrite bind_emit, bind_call in Hrun. cbn [world trace] in Hrun.
    destruct (create_temporal_covariate_settings _ _) as [[e|tcs] w5]; [done|].
    rewrite bind_emit in Hrun. cbv zeta in Hrun. rewrite bind_lift in Hrun.
    destruct (forallb _ _); [|done].
    rewrite bind_call in Hrun. cbn [world trace] in Hrun.
    destruct (execute_diagnostics _ _) as [[e|[]] w6]; [done|].
    unfold emit, call in Hrun. cbn [world trace] in Hrun.
    injection Hrun as <-. cbn [trace].
    eexists _, _. rewrite <- app_assoc. reflexivity.
  - rewrite Hret. cbn [snd trace]. rewrite List.filter_app, Hquiet. done.
Qed.

(** C9.  When the number of names differs from the number of definitions,
    the worker raises while it builds the cohort definition set, and the
    whole invocation ends there: no table-creation, cohort-generation or
    diagnostics call has been recorded.  For a task identifier that is not
    negative and definitions the query builder accepts, what is raised is
    pandas' length-mismatch error. *)
Theorem name_count_mismatch_fails conn meta_omop meta_run
    (cohort_definitions : list json) (cohort_names : list string)
    (temporal_covariate_settings diagnostics_settings : gmap string json) st :
  length cohort_names <> length cohort_definitions ->
  exists e st',
    build_cohort_definition_set meta_run cohort_definitions cohort_names st
      = (Raise e, st')
    /\ cohort_diagnostics conn meta_omop meta_run cohort_definitions cohort_names
         temporal_covariate_settings diagnostics_settings st = (Raise e, st')
    /\ List.filter is_database_call (trace st')
       = List.filter is_database_call (trace st)
    /\ (0 <= task_id meta_run ->
        Forall (fun d => exists q, cohort_query d = Return q) cohort_definitions ->
        e = ValueError "All arrays must be of the same length").
Proof.
  intros Hne.
  assert (Hbuild : exists e st',
    build_cohort_definition_set meta_run cohort_definitions cohort_names st
      = (Raise e, st')
    /\ (0 <= task_id meta_run ->
        Forall (fun d => exists q, cohort_query d = Return q) cohort_definitions ->
        e = ValueError "All arrays must be of the same length")).
  { rewrite build_unfold.
    destruct (cohort_ids meta_run (length cohort_definitions)) as [e|ids] eqn:Hids.
    { exists e, st. split; [done|]. intros Ht _.
      destruct (cohort_ids_spec meta_run (length cohort_definitions) Ht)
        as (ids & Hids' & _). congruence. }
    cbv zeta.
    match goal with |- context [M_map _create_cohort_query ?l ?s] =>
      pose proof (M_map_value _create_cohort_query cohort_query l s
                    create_cohort_query_value) as Hmap;
      destruct (M_map _create_cohort_query l s) as [[e|sqls] st2]
    end.
    { exists e, st2. split; [done|]. intros _ Hvalid.
      destruct (cohort_queries_defined _ Hvalid) as (qs & Hqs & _).
      simpl in Hmap. congruence. }
    apply result_map_length in Hids. rewrite length_seq in Hids.
    rewrite DataFrame_mismatch by lia. eauto. }
  destruct Hbuild as (e & st' & Hbuild & He).
  exists e, st'. split; [done|]. split; [|split; [|done]].
  - unfold cohort_diagnostics, run_diagnostics.
    by rewrite bind_run, bind_run, Hbuild.
  - assert (Hq := build_quiet (World:=World) (Connection:=Connection)
                    (RObject:=RObject) is_database_call meta_run
                    cohort_definitions cohort_names
                    ltac:(intros ev Hev; by left) st).
    by rewrite Hbuild in Hq.
Qed.
End WorkerTheorems.

Section WorkerWitnesses.
Import Worker SampleNode.

Lemma work_items_built_witness :
  exists df st',
    build_cohort_definition_set (circe := circe) meta_run definitions names start
      = (Return df, st')
    /\ length df = length definitions
    /\ forall i d, definitions !! i = Some d ->
         exists x name q,
           cohort_id meta_run i = Return x
           /\ names !! i = Some name
           /\ (_create_cohort_query (circe := circe) d start).1 = Return q
           /\ df !! i = Some {| cohortId := x; cohortName := name; json_ := d;
                                sql := q; logicDescription := None;
                                generateStats := true |}.
Proof.
  apply (work_items_built (circe := circe) meta_run definitions names start).
  - reflexivity.
  - simpl. lia.
  - repeat constructor; eexists; reflexivity.
Defined.

Lemma worker_returns_incidence_rate_witness :
  (cohort_diagnostics (circe := circe) (ohdsi := ohdsi) tt meta_omop meta_run
     definitions names no_settings no_settings start).1
  = Return "tmp/exports/incidence_rate.csv"%string.
Proof.
  pose proof (worker_returns_incidence_rate (circe := circe) (ohdsi := ohdsi)
    tt meta_omop meta_run definitions names no_settings no_settings start
    (run_diagnostics (circe := circe) (ohdsi := ohdsi) tt meta_omop meta_run
       definitions names no_settings no_settings start).2
    ltac:(vm_compute; reflexivity)) as (_ & _ & Hrun & _).
  rewrite Hrun. reflexivity.
Defined.

Lemma name_count_mismatch_fails_witness :
  exists e st',
    build_cohort_definition_set (circe := circe) meta_run definitions
      ["A"]%string start = (Raise e, st')
    /\ cohort_diagnostics (circe := circe) (ohdsi := ohdsi) tt meta_omop meta_run
         definitions ["A"]%string no_settings no_settings start = (Raise e, st')
    /\ List.filter is_database_call (trace st')
       = List.filter is_database_call (trace start)
    /\ (0 <= task_id meta_run ->
        Forall (fun d => exists q, cohort_query (circe := circe) d = Return q)
          definitions ->
        e = ValueError "All arrays must be of the same length").
Proof.
  apply (name_count_mismatch_fails (circe := circe) (ohdsi := ohdsi)
           tt meta_omop meta_run definitions ["A"]%string
           no_settings no_settings start).
  simpl. lia.
Defined.
End WorkerWitnesses.

(* ================================================================== *)
(** * The identifier scheme at and beyond its bounds *)
(* ================================================================== *)

Section DigitCount.
Import PyFloat PyFormat.

Lemma digit_value_range c d : digit_value c = Some d -> 0 <= d <= 9.
Proof.
  unfold digit_value.
  destruct (Z.leb_spec 48 (Z.of_nat (nat_of_ascii c)));
    destruct (Z.leb_spec (Z.of_nat (nat_of_ascii c)) 57); simpl; try done.
  intros [= <-]. lia.
Qed.

(** The digits read after an accumulator leave it in the leading position. *)
Lemma parse_digits_range s acc v :
  0 <= acc -> parse_digits acc s = Some v ->
  acc * 10 ^ Z.of_nat (String.length s) <= v
  < (acc + 1) * 10 ^ Z.of_nat (String.length s).
Proof.
  revert acc. induction s as [|c s IH]; intros acc Hacc; simpl.
  - intros [= <-]. lia.
  - destruct (digit_value c) as [d|] eqn:Hd; [|done].
    apply digit_value_range in Hd. intros H.
    apply IH in H; [|lia].
    rewrite Nat2Z.inj_succ, Z.pow_succ_r by lia.
    assert (0 < 10 ^ Z.of_nat (String.length s)) by (apply Z.pow_pos_nonneg; lia).
    nia.
Qed.

Lemma to_uint_leading p : forall d, Pos.to_uint p <> Decimal.D0 d.
Proof.
  intros d Hd.
  pose proof (DecimalPos.Unsigned.to_of (Pos.to_uint p)) as Hnorm.
  rewrite DecimalPos.Unsigned.of_to in Hnorm. simpl in Hnorm.
  pose proof (DecimalPos.Unsigned.to_uint_nonzero p) as Hnz.
  unfold Decimal.unorm in Hnorm.
  destruct (Decimal.nzhead (Pos.to_uint p)) eqn:Hhead;
    [ by rewrite Hnorm in Hnz
    | by apply DecimalFacts.nzhead_nonzero in Hhead
    | rewrite Hd in Hnorm; discriminate .. ].
Qed.

(** A positive number of [k] digits lies between [10^(k-1)] and [10^k]. *)
Lemma digits_bounds p :
  10 ^ (Z.of_nat (String.length (digits (N.pos p))) - 1) <= Z.pos p
  < 10 ^ Z.of_nat (String.length (digits (N.pos p))).
Proof.
  pose proof (parse_digits_digits (N.pos p)) as Hparse.
  unfold digits in *. simpl N.to_uint in *.
  pose proof (to_uint_leading p) as Hlead.
  pose proof (DecimalPos.Unsigned.to_uint_nonnil p) as Hnil.
  destruct (Pos.to_uint p) as [|d|d|d|d|d|d|d|d|d|d]; try done;
    try (by exfalso; eapply Hlead);
    cbn [NilZero.string_of_uint NilEmpty.string_of_uint String.length] in *;
    cbn [parse_digits] in Hparse;
    match type of Hparse with
    | context [digit_value ?c] =>
        let v := eval vm_compute in (digit_value c) in
        change (digit_value c) with v in Hparse
    end; cbv beta iota in Hparse;
    apply parse_digits_range in Hparse; try lia;
    rewrite Nat2Z.inj_succ;
    replace (Z.succ (Z.of_nat (String.length (NilEmpty.string_of_uint d))) - 1)
      with (Z.of_nat (String.length (NilEmpty.string_of_uint d))) by lia;
    rewrite Z.pow_succ_r by lia;
    assert (0 < 10 ^ Z.of_nat (String.length (NilEmpty.string_of_uint d)))
      by (apply Z.pow_pos_nonneg; lia);
    simpl Z.of_N in Hparse; nia.
Qed.

Lemma length_digits (k : nat) z :
  (0 < k)%nat -> 10 ^ (Z.of_nat k - 1) <= z < 10 ^ Z.of_nat k ->
  String.length (digits (Z.abs_N z)) = k.
Proof.
  intros Hk Hz.
  assert (0 < z).
  { assert (0 < 10 ^ (Z.of_nat k - 1)) by (apply Z.pow_pos_nonneg; lia). lia. }
  destruct z as [|p|p]; try lia. simpl Z.abs_N.
  pose proof (digits_bounds p) as Hb.
  set (L := String.length (digits (N.pos p))) in *.
  assert (Z.of_nat L - 1 < Z.of_nat k).
  { apply (Z.pow_lt_mono_r_iff 10); lia. }
  assert (Z.of_nat k - 1 < Z.of_nat L).
  { apply (Z.pow_lt_mono_r_iff 10); lia. }
  lia.
Qed.

Lemma length_format_0d w (k : nat) z :
  (0 < k)%nat -> 10 ^ (Z.of_nat k - 1) <= z < 10 ^ Z.of_nat k ->
  String.length (format_0d w z) = Nat.max w k.
Proof.
  intros Hk Hz. unfold format_0d.
  assert (0 < 10 ^ (Z.of_nat k - 1)) by (apply Z.pow_pos_nonneg; lia).
  destruct (Z.ltb_spec z 0); [lia|].
  rewrite length_append, length_zeros, (length_digits k) by done. lia.
Qed.
End DigitCount.

Section IdentifierBounds.
Import PyFloat PyFormat.

Lemma of_Z_eqb_inj0 z1 z2 :
  0 <= z1 < 2 ^ 53 -> 0 <= z2 < 2 ^ 53 ->
  eqb (of_Z z1) (of_Z z2) = true -> z1 = z2.
Proof.
  intros H1 H2 Heq.
  destruct (Z.eq_dec z1 0) as [->|Hz1], (Z.eq_dec z2 0) as [->|Hz2]; try done.
  - exfalso. destruct z2 as [|p|p]; try lia.
    destruct (of_Z_pos_exact p) as (m & e & Hm & _); [lia|].
    rewrite Hm in Heq. done.
  - exfalso. destruct z1 as [|p|p]; try lia.
    destruct (of_Z_pos_exact p) as (m & e & Hm & _); [lia|].
    rewrite Hm in Heq. done.
  - apply of_Z_eqb_inj; [lia..|done].
Qed.

Lemma of_Z_eqb_refl z : 0 <= z < 2 ^ 53 -> eqb (of_Z z) (of_Z z) = true.
Proof.
  intros Hz. destruct z as [|p|p]; try lia; [done|].
  destruct (of_Z_pos_exact p) as (m & e & -> & _); [lia|].
  unfold eqb, SFeqb, SFcompare. rewrite Z.compare_refl.
  change (Pos.compare_cont Eq m m) with (Pos.compare m m).
  by rewrite Pos.compare_refl.
Qed.

(** X7.  For node identifiers in [0, 900719924], task identifiers in
    [0, 9999] and indices in [0, 999], the identifiers of line 117-119 are
    defined, and two of them are equal as floats exactly when they come
    from the same node and task and the same index. *)
Theorem cohort_id_unique_across_nodes m1 m2 (i1 i2 : nat) :
  0 <= node_id m1 <= 900719924 -> 0 <= node_id m2 <= 900719924 ->
  0 <= task_id m1 <= 9999 -> 0 <= task_id m2 <= 9999 ->
  (i1 <= 999)%nat -> (i2 <= 999)%nat ->
  exists x1 x2,
    cohort_id m1 i1 = Return x1 /\ cohort_id m2 i2 = Return x2 /\
    (PyFloat.eqb x1 x2 = true <-> m1 = m2 /\ i1 = i2).
Proof.
  intros Hn1 Hn2 Ht1 Ht2 Hi1 Hi2.
  exists (of_Z (id_magnitude m1 i1)), (of_Z (id_magnitude m2 i2)).
  assert (Hnn : forall m, 0 <= node_id m -> (node_id m <? 0) = false)
    by (intros m ?; apply Z.ltb_ge; lia).
  split; [rewrite cohort_id_value by lia; by rewrite Hnn by lia|].
  split; [rewrite cohort_id_value by lia; by rewrite Hnn by lia|].
  rewrite !id_magnitude_in_range by done.
  rewrite !Z.abs_eq by lia. split.
  - intros Heq. apply of_Z_eqb_inj0 in Heq; [|lia..].
    destruct m1 as [t1 n1], m2 as [t2 n2]. simpl in *.
    assert (n1 = n2 /\ t1 = t2 /\ i1 = i2) as (-> & -> & ->) by lia. done.
  - intros [-> ->]. apply of_Z_eqb_refl. lia.
Qed.

(** X8.  The width in [{task_id:04d}] is a minimum: a task identifier of
    five digits keeps all its digits, so its leading digit reads as one
    more digit of the node identifier, and the identifier equals the one
    that a different node derives for a four-digit task. *)
Theorem task_id_overflow_collides n t (i : nat) :
  0 <= n -> 10000 <= t <= 99999 -> (i <= 999)%nat ->
  n <> 10 * n + t / 10000
  /\ cohort_id {| task_id := t; node_id := n |} i
     = cohort_id {| task_id := t mod 10000; node_id := 10 * n + t / 10000 |} i
  /\ cohort_id {| task_id := t; node_id := n |} i
     = Return (of_Z (n * 100000000 + t * 1000 + Z.of_nat i)).
Proof.
  intros Hn Ht Hi.
  pose proof (Z.div_mod t 10000 ltac:(lia)) as Hdm.
  pose proof (Z.mod_pos_bound t 10000 ltac:(lia)) as Hmod.
  assert (1 <= t / 10000 <= 9) as Hq.
  { split; [apply Z.div_le_lower_bound; lia|].
    apply Z.lt_succ_r, Z.div_lt_upper_bound; lia. }
  split; [lia|].
  assert (Hlhs : cohort_id {| task_id := t; node_id := n |} i
                 = Return (of_Z (n * 100000000 + t * 1000 + Z.of_nat i))).
  { rewrite cohort_id_value by (simpl; lia). cbn [node_id].
    replace (n <? 0) with false by (symmetry; apply Z.ltb_ge; lia).
    do 2 f_equal. unfold id_magnitude. cbn [node_id task_id].
    rewrite (length_format_0d 4 5 t), length_format_0d_3 by (simpl; lia).
    rewrite Z.abs_eq by lia. simpl. lia. }
  split; [|done]. rewrite Hlhs.
  rewrite cohort_id_value by (simpl; lia). cbn [node_id].
  replace (10 * n + t / 10000 <? 0) with false by (symmetry; apply Z.ltb_ge; lia).
  do 2 f_equal. rewrite id_magnitude_in_range by (simpl; lia).
  cbn [node_id task_id]. rewrite Z.abs_eq by lia. lia.
Qed.

(** X9.  The width in [{i:03d}] is a minimum as well: an index of four
    digits (a set of more than a thousand definitions) keeps all its digits,
    and the identifier equals one that another node or task derives for an
    index below a thousand. *)
Theorem index_overflow_collides n t (i : nat) :
  0 <= n -> 0 <= t <= 9999 -> 1000 <= Z.of_nat i <= 9999 ->
  (n, t) <> (10 * n + (10 * t + Z.of_nat i / 1000) / 10000,
             (10 * t + Z.of_nat i / 1000) mod 10000)
  /\ cohort_id {| task_id := t; node_id := n |} i
     = cohort_id {| task_id := (10 * t + Z.of_nat i / 1000) mod 10000;
                    node_id := 10 * n + (10 * t + Z.of_nat i / 1000) / 10000 |}
         (i mod 1000)
  /\ cohort_id {| task_id := t; node_id := n |} i
     = Return (of_Z (n * 100000000 + t * 10000 + Z.of_nat i)).
Proof.
  intros Hn Ht Hi.
  set (d := Z.of_nat i / 1000).
  pose proof (Z.div_mod (Z.of_nat i) 1000 ltac:(lia)) as Hdm. fold d in Hdm.
  pose proof (Z.mod_pos_bound (Z.of_nat i) 1000 ltac:(lia)) as Hmod.
  assert (1 <= d <= 9) as Hd.
  { subst d. split; [apply Z.div_le_lower_bound; lia|].
    apply Z.lt_succ_r, Z.div_lt_upper_bound; lia. }
  pose proof (Z.div_mod (10 * t + d) 10000 ltac:(lia)) as Hdm'.
  pose proof (Z.mod_pos_bound (10 * t + d) 10000 ltac:(lia)) as Hmod'.
  assert (0 <= (10 * t + d) / 10000 <= 9) as Hq.
  { split; [apply Z.div_pos; lia|].
    apply Z.lt_succ_r, Z.div_lt_upper_bound; lia. }
  split.
  { intros [= H1 H2]. rewrite <- H2 in Hdm'. lia. }
  assert (Hlhs : cohort_id {| task_id := t; node_id := n |} i
                 = Return (of_Z (n * 100000000 + t * 10000 + Z.of_nat i))).
  { rewrite cohort_id_value by (simpl; lia). cbn [node_id].
    replace (n <? 0) with false by (symmetry; apply Z.ltb_ge; lia).
    do 2 f_equal. unfold id_magnitude. cbn [node_id task_id].
    rewrite length_format_0d_4, (length_format_0d 3 4 (Z.of_nat i))
      by (simpl; lia).
    rewrite Z.abs_eq by lia. simpl. lia. }
  split; [|done]. rewrite Hlhs.
  rewrite cohort_id_value by (simpl; lia). cbn [node_id].
  replace (10 * n + (10 * t + d) / 10000 <? 0) with false
    by (symmetry; apply Z.ltb_ge; lia).
  assert (Hi' : Z.of_nat (i mod 1000) = Z.of_nat i mod 1000)
    by (rewrite Nat2Z.inj_mod; done).
  do 2 f_equal.
  rewrite id_magnitude_in_range; cbn [node_id task_id]; [|lia|].
  2: { apply Nat2Z.inj_le. rewrite Hi'. simpl Z.of_nat. lia. }
  rewrite Z.abs_eq, Hi' by lia. lia.
Qed.

Lemma cohort_id_unique_across_nodes_witness :
  exists x1 x2,
    cohort_id {| task_id := 34; node_id := 12 |} 1 = Return x1 /\
    cohort_id {| task_id := 34; node_id := 13 |} 1 = Return x2 /\
    (PyFloat.eqb x1 x2 = true
     <-> {| task_id := 34; node_id := 12 |} = {| task_id := 34; node_id := 13 |}
         /\ 1%nat = 1%nat).
Proof.
  apply (cohort_id_unique_across_nodes {| task_id := 34; node_id := 12 |}
           {| task_id := 34; node_id := 13 |} 1 1); simpl; lia.
Defined.

Lemma task_id_overflow_collides_witness :
  1 <> 10 * 1 + 10000 / 10000
  /\ cohort_id {| task_id := 10000; node_id := 1 |} 0
     = cohort_id {| task_id := 10000 mod 10000;
                    node_id := 10 * 1 + 10000 / 10000 |} 0
  /\ cohort_id {| task_id := 10000; node_id := 1 |} 0
     = Return (of_Z (1 * 100000000 + 10000 * 1000 + Z.of_nat 0)).
Proof.
  apply (task_id_overflow_collides 1 10000 0); lia.
Defined.

Lemma index_overflow_collides_witness :
  (12, 34) <> (10 * 12 + (10 * 34 + Z.of_nat 1000 / 1000) / 10000,
               (10 * 34 + Z.of_nat 1000 / 1000) mod 10000)
  /\ cohort_id {| task_id := 34; node_id := 12 |} 1000
     = cohort_id {| task_id := (10 * 34 + Z.of_nat 1000 / 1000) mod 10000;
                    node_id := 10 * 12 + (10 * 34 + Z.of_nat 1000 / 1000) / 10000 |}
         (1000 mod 1000)
  /\ cohort_id {| task_id := 34; node_id := 12 |} 1000
     = Return (of_Z (12 * 100000000 + 34 * 10000 + Z.of_nat 1000)).
Proof.
  apply (index_overflow_collides 12 34 1000); lia.
Defined.
End IdentifierBounds.

(* ================================================================== *)
(** * Texts: table names and refused identifiers *)
(* ================================================================== *)

Section Texts.
Import PyFloat PyFormat.

Lemma parse_digits_occurs c s acc v :
  parse_digits acc s = Some v -> occurs c s = true -> digit_value c <> None.
Proof.
  revert acc. induction s as [|c' s IH]; intros acc; simpl; [done|].
  destruct (digit_value c') as [d|] eqn:Hd; [|done].
  intros Hparse [Hc|Hc]%orb_prop.
  - apply Ascii.eqb_eq in Hc as ->. by rewrite Hd.
  - by eapply IH.
Qed.

Lemma digits_free_of c n : digit_value c = None -> occurs c (digits n) = false.
Proof.
  intros Hc. destruct (occurs c (digits n)) eqn:Hocc; [|done].
  by destruct (parse_digits_occurs c _ _ _ (parse_digits_digits n) Hocc).
Qed.

Lemma digits_inj n1 n2 : digits n1 = digits n2 -> n1 = n2.
Proof.
  intros Heq. pose proof (parse_digits_digits n1) as H1.
  rewrite Heq, parse_digits_digits in H1. injection H1 as H1. lia.
Qed.

Lemma digits_head n s : digits n <> String "-" s.
Proof.
  intros Heq. pose proof (parse_digits_digits n) as H. by rewrite Heq in H.
Qed.

Lemma str_int_inj z1 z2 : str_int z1 = str_int z2 -> z1 = z2.
Proof.
  unfold str_int.
  destruct (Z.ltb_spec z1 0), (Z.ltb_spec z2 0); intros Heq.
  - injection Heq as Heq%digits_inj. lia.
  - symmetry in Heq. by apply digits_head in Heq.
  - by apply digits_head in Heq.
  - apply digits_inj in Heq. lia.
Qed.

Lemma str_int_free_of_underscore z : occurs "_" (str_int z) = false.
Proof.
  unfold str_int. destruct (z <? 0); simpl; by apply digits_free_of.
Qed.

(** Two texts cut at their first underscore agree part by part. *)
Lemma split_at_underscore a1 a2 r1 r2 :
  occurs "_" a1 = false -> occurs "_" a2 = false ->
  a1 +:+ String "_" r1 = a2 +:+ String "_" r2 -> a1 = a2 /\ r1 = r2.
Proof.
  revert a2. induction a1 as [|c1 a1 IH]; intros [|c2 a2]; simpl.
  - by intros _ _ [= ->].
  - intros _ Hocc [= <- _]. done.
  - intros Hocc _ [= -> _]. done.
  - intros [_ H1]%orb_false_elim [_ H2]%orb_false_elim [= -> Heq].
    destruct (IH _ H1 H2 Heq) as [-> ->]. done.
Qed.

(** X10.  The table name of line 136, [cohort_{task_id}_{node_id}],
    determines the task and the node: two runs share it only if they agree
    on both identifiers, negative ones included. *)
Theorem cohort_table_name_injective m1 m2 :
  cohort_table_name m1 = cohort_table_name m2 <-> m1 = m2.
Proof.
  split; [|by intros ->].
  unfold cohort_table_name. simpl. intros [= Heq].
  apply split_at_underscore in Heq as [Ht%str_int_inj Hn%str_int_inj];
    try apply str_int_free_of_underscore.
  destruct m1, m2. simpl in *. by subst.
Qed.

Lemma of_string_refuses s :
  parse_nat s = None -> (forall s', s = String "-" s' -> parse_nat s' = None) ->
  of_string s = Raise (ValueError "could not convert string to float").
Proof.
  intros Hs Hminus. unfold of_string. destruct s as [|c s']; [done|].
  destruct (Ascii.eqb_spec c "-") as [->|_].
  - by rewrite (Hminus s').
  - by rewrite Hs.
Qed.

Lemma parse_minus_inside a r : parse_nat (digits a +:+ String "-" r) = None.
Proof.
  rewrite parse_nat_digits.
  2: { pose proof (digits_nonempty a). destruct (digits a); done. }
  by rewrite parse_digits_app, parse_digits_digits.
Qed.

Lemma format_0d_negative w z :
  z < 0 -> exists r, format_0d w z = String "-" r.
Proof.
  intros Hz. unfold format_0d. destruct (Z.ltb_spec z 0); [|lia]. eauto.
Qed.

Lemma cohort_id_negative_task meta_run i :
  task_id meta_run < 0 ->
  cohort_id meta_run i = Raise (ValueError "could not convert string to float").
Proof.
  intros Ht. unfold cohort_id. rewrite cohort_id_text_sign. unfold id_digits.
  destruct (format_0d_negative 4 (task_id meta_run) Ht) as [r ->].
  change (String "-" r +:+ format_0d 3 (Z.of_nat i))
    with (String "-" (r +:+ format_0d 3 (Z.of_nat i))).
  destruct (node_id meta_run <? 0).
  - unfold of_string. simpl Ascii.eqb. cbv iota.
    by rewrite parse_minus_inside.
  - apply of_string_refuses; [apply parse_minus_inside|].
    intros s' Heq. exfalso.
    pose proof (digits_nonempty (Z.abs_N (node_id meta_run))) as Hne.
    destruct (digits _) as [|c d] eqn:Hd; [done|]. simpl in Heq.
    injection Heq as -> _. by apply digits_head in Hd.
Qed.
End Texts.

(* ================================================================== *)
(** * The orchestrator, outcome by outcome *)
(* ================================================================== *)

Section CentralRuns.
Import Central CentralCalls.
Context {World : Type} `{client : AlgorithmClient World}.
Implicit Types (st : state World event) (sel : selector).

(** Every outcome of lines 77-98, with the events each one records. *)
Lemma request_and_wait_unfold defs names tcs ds ids st :
  request_and_wait defs names tcs ds ids st
  = let input_ := task_input defs names tcs ds in
    let asked := [Info (Text "Requesting partial computation");
                  TaskCreate input_ ids] in
    match task_create input_ ids (world st) with
    | (Raise e, w) => (Raise e, {| world := w; trace := trace st ++ asked |})
    | (Return task, w) =>
        let assigned := asked ++ [Info (TaskAssigned (task !! "id"%string));
                                  Info (Text "Waiting for results")] in
        match task !! "id"%string with
        | None =>
            (Raise (KeyError "id"),
             {| world := w; trace := trace st ++ assigned |})
        | Some id =>
            match wait_for_results id w with
            | (Raise e, w') =>
                (Raise e,
                 {| world := w';
                    trace := trace st ++ assigned ++ [WaitForResults id] |})
            | (Return all_results, w') =>
                (Return all_results,
                 {| world := w';
                    trace := trace st ++ assigned ++
                      [WaitForResults id;
                       Info (Text "Results received, sending them back to server")] |})
            end
        end
    end.
Proof.
  unfold request_and_wait, info. cbv zeta.
  rewrite bind_emit, bind_call. cbn [world trace].
  destruct (task_create _ _ _) as [[e|task] w]; cbv beta iota.
  { by rewrite <- app_assoc. }
  rewrite !bind_emit, bind_lift. cbn [world trace].
  destruct (task !! "id"%string) as [id|]; cbv beta iota.
  2: { by rewrite <- !app_assoc. }
  rewrite bind_call. cbn [world trace].
  destruct (wait_for_results _ _) as [[e|res] w']; cbv beta iota.
  { by rewrite <- !app_assoc. }
  rewrite bind_emit. cbn [world trace]. unfold mret, M_ret.
  by rewrite <- !app_assoc.
Qed.

Lemma central_accepted defs names tcs ds sel st orgs w :
  organization_list (world st) = (Return orgs, w) ->
  sel = SelStr "ALL" \/ py_set sel ⊆ list_to_set (map org_id orgs) ->
  central defs names tcs ds (Some sel) st
  = request_and_wait defs names tcs ds (resolved_ids sel orgs)
      {| world := w;
         trace := trace st ++
           [Info (Text "Collecting participating organizations");
            OrganizationList] |}.
Proof.
  intros Horgs Hsel. rewrite central_unfold, Horgs. cbv zeta.
  cbn [default from_option id world trace]. rewrite <- app_assoc. simpl app.
  unfold resolved_ids. destruct (ne_ALL sel) eqn:Hne.
  - assert (sel <> SelStr "ALL") as Hne' by (intros ?%ne_ALL_false; congruence).
    destruct Hsel as [?|Hsub]; [done|].
    unfold issubset. rewrite bool_decide_eq_true_2 by done. cbn [negb]; cbv iota.
    by rewrite decide_False.
  - apply ne_ALL_false in Hne as ->. by rewrite decide_True.
Qed.

(** X1.  When the server lists the organizations, the selector is the
    sentinel or names listed organizations only, the task is created with
    an identifier and the wait returns, [central] returns exactly what the
    wait returned and records exactly eight events after those it started
    with: the listing, one task over the resolved target, the wait on that
    task's identifier, and the five log lines around them (lines 62-98). *)
Theorem central_returns_results
    (cohort_definitions cohort_names temporal_covariate_settings
     diagnostics_settings : json) sel st orgs task id all_results w1 w2 w3 :
  organization_list (world st) = (Return orgs, w1) ->
  sel = SelStr "ALL" \/ py_set sel ⊆ list_to_set (map org_id orgs) ->
  task_create
    (task_input cohort_definitions cohort_names temporal_covariate_settings
       diagnostics_settings)
    (resolved_ids sel orgs) w1 = (Return task, w2) ->
  task !! "id"%string = Some id ->
  wait_for_results id w2 = (Return all_results, w3) ->
  central cohort_definitions cohort_names temporal_covariate_settings
    diagnostics_settings (Some sel) st
  = (Return all_results,
     {| world := w3;
        trace := trace st ++
          [Info (Text "Collecting participating organizations");
           OrganizationList;
           Info (Text "Requesting partial computation");
           TaskCreate
             (task_input cohort_definitions cohort_names
                temporal_covariate_settings diagnostics_settings)
             (resolved_ids sel orgs);
           Info (TaskAssigned (Some id));
           Info (Text "Waiting for results");
           WaitForResults id;
           Info (Text "Results received, sending them back to server")] |}).
Proof.
  intros Horgs Hsel Hcreate Hid Hwait.
  rewrite (central_accepted _ _ _ _ _ _ _ _ Horgs Hsel), request_and_wait_unfold.
  cbv zeta. cbn [world trace]. rewrite Hcreate, Hid, Hwait.
  by rewrite <- !app_assoc.
Qed.

(** X2.  A failure of the organization listing (line 64) is the failure of
    [central], whatever the selector: only the first log line and the
    listing are recorded, and no task is created. *)
Theorem central_listing_failure
    (cohort_definitions cohort_names temporal_covariate_settings
     diagnostics_settings : json) (organizations_to_include : option selector)
    st e w :
  organization_list (world st) = (Raise e, w) ->
  central cohort_definitions cohort_names temporal_covariate_settings
    diagnostics_settings organizations_to_include st
  = (Raise e,
     {| world := w;
        trace := trace st ++
          [Info (Text "Collecting participating organizations");
           OrganizationList] |}).
Proof.
  intros Horgs. rewrite central_unfold, Horgs. cbv zeta. cbn [world trace].
  by rewrite <- app_assoc.
Qed.

(** X3.  A failure of the task creation (lines 79-90) is the failure of
    [central]: the run stops at the creation, before the assignment is
    logged and before any wait. *)
Theorem central_creation_failure
    (cohort_definitions cohort_names temporal_covariate_settings
     diagnostics_settings : json) sel st orgs e w1 w2 :
  organization_list (world st) = (Return orgs, w1) ->
  sel = SelStr "ALL" \/ py_set sel ⊆ list_to_set (map org_id orgs) ->
  task_create
    (task_input cohort_definitions cohort_names temporal_covariate_settings
       diagnostics_settings)
    (resolved_ids sel orgs) w1 = (Raise e, w2) ->
  central cohort_definitions cohort_names temporal_covariate_settings
    diagnostics_settings (Some sel) st
  = (Raise e,
     {| world := w2;
        trace := trace st ++
          [Info (Text "Collecting participating organizations");
           OrganizationList;
           Info (Text "Requesting partial computation");
           TaskCreate
             (task_input cohort_definitions cohort_names
                temporal_covariate_settings diagnostics_settings)
             (resolved_ids sel orgs)] |}).
Proof.
  intros Horgs Hsel Hcreate.
  rewrite (central_accepted _ _ _ _ _ _ _ _ Horgs Hsel), request_and_wait_unfold.
  cbv zeta. cbn [world trace]. rewrite Hcreate.
  by rewrite <- !app_assoc.
Qed.

(** X4.  A failure of the wait (line 95) is the failure of [central], after
    exactly one task creation and one wait on that task's identifier. *)
Theorem central_wait_failure
    (cohort_definitions cohort_names temporal_covariate_settings
     diagnostics_settings : json) sel st orgs task id e w1 w2 w3 :
  organization_list (world st) = (Return orgs, w1) ->
  sel = SelStr "ALL" \/ py_set sel ⊆ list_to_set (map org_id orgs) ->
  task_create
    (task_input cohort_definitions cohort_names temporal_covariate_settings
       diagnostics_settings)
    (resolved_ids sel orgs) w1 = (Return task, w2) ->
  task !! "id"%string = Some id ->
  wait_for_results id w2 = (Raise e, w3) ->
  (central cohort_definitions cohort_names temporal_covariate_settings
     diagnostics_settings (Some sel) st).1 = Raise e
  /\ List.filter is_dispatch
       (trace (central cohort_definitions cohort_names
                 temporal_covariate_settings diagnostics_settings (Some sel) st).2)
     = List.filter is_dispatch (trace st) ++
       [TaskCreate
          (task_input cohort_definitions cohort_names
             temporal_covariate_settings diagnostics_settings)
          (resolved_ids sel orgs);
        WaitForResults id].
Proof.
  intros Horgs Hsel Hcreate Hid Hwait.
  rewrite (central_accepted _ _ _ _ _ _ _ _ Horgs Hsel), request_and_wait_unfold.
  cbv zeta. cbn [world trace]. rewrite Hcreate, Hid, Hwait.
  split; [done|]. by trace_filter.
Qed.

(** X5.  A created task that carries no ["id"] is logged as assigned with
    identifier [None] (line 91, [task.get]) and then makes [central] fail
    with a [KeyError] on line 95 ([task["id"]]), after the task was created
    and before any wait. *)
Theorem central_task_without_id
    (cohort_definitions cohort_names temporal_covariate_settings
     diagnostics_settings : json) sel st orgs task w1 w2 :
  organization_list (world st) = (Return orgs, w1) ->
  sel = SelStr "ALL" \/ py_set sel ⊆ list_to_set (map org_id orgs) ->
  task_create
    (task_input cohort_definitions cohort_names temporal_covariate_settings
       diagnostics_settings)
    (resolved_ids sel orgs) w1 = (Return task, w2) ->
  task !! "id"%string = None ->
  central cohort_definitions cohort_names temporal_covariate_settings
    diagnostics_settings (Some sel) st
  = (Raise (KeyError "id"),
     {| world := w2;
        trace := trace st ++
          [Info (Text "Collecting participating organizations");
           OrganizationList;
           Info (Text "Requesting partial computation");
           TaskCreate
             (task_input cohort_definitions cohort_names
                temporal_covariate_settings diagnostics_settings)
             (resolved_ids sel orgs);
           Info (TaskAssigned None);
           Info (Text "Waiting for results")] |}).
Proof.
  intros Horgs Hsel Hcreate Hid.
  rewrite (central_accepted _ _ _ _ _ _ _ _ Horgs Hsel), request_and_wait_unfold.
  cbv zeta. cbn [world trace]. rewrite Hcreate, Hid.
  by rewrite <- !app_assoc.
Qed.

Lemma request_and_wait_dispatch defs names tcs ds ids st :
  exists l,
    List.filter is_dispatch (trace (request_and_wait defs names tcs ds ids st).2)
    = List.filter is_dispatch (trace st) ++ l
    /\ match (request_and_wait defs names tcs ds ids st).1 with
       | Return _ =>
           exists id, l = [TaskCreate (task_input defs names tcs ds) ids;
                           WaitForResults id]
       | Raise _ =>
           l = [TaskCreate (task_input defs names tcs ds) ids]
           \/ exists id, l = [TaskCreate (task_input defs names tcs ds) ids;
                              WaitForResults id]
       end.
Proof.
  rewrite request_and_wait_unfold. cbv zeta.
  destruct (task_create _ _ _) as [[e|task] w].
  { exists [TaskCreate (task_input defs names tcs ds) ids].
    split; [by trace_filter|]. by left. }
  destruct (task !! "id"%string) as [id|].
  2: { exists [TaskCreate (task_input defs names tcs ds) ids].
       split; [by trace_filter|]. by left. }
  exists [TaskCreate (task_input defs names tcs ds) ids; WaitForResults id].
  destruct (wait_for_results _ _) as [[e|res] w'].
  - split; [by trace_filter|]. right. by exists id.
  - split; [by trace_filter|]. by exists id.
Qed.

(** X6.  Whatever the server answers and whatever the selector, [central]
    creates at most one task and waits at most once, the wait after the
    creation; a run that returns either made both calls, or made none and
    returned the message of lines 71-74. *)
Theorem central_dispatch_discipline
    (cohort_definitions cohort_names temporal_covariate_settings
     diagnostics_settings : json) (organizations_to_include : option selector)
    st :
  exists l,
    List.filter is_dispatch
      (trace (central cohort_definitions cohort_names
                temporal_covariate_settings diagnostics_settings
                organizations_to_include st).2)
    = List.filter is_dispatch (trace st) ++ l
    /\ match (central cohort_definitions cohort_names
                temporal_covariate_settings diagnostics_settings
                organizations_to_include st).1 with
       | Return r =>
           (l = [] /\ r = not_in_collaboration)
           \/ exists ids id,
                l = [TaskCreate
                       (task_input cohort_definitions cohort_names
                          temporal_covariate_settings diagnostics_settings) ids;
                     WaitForResults id]
       | Raise _ =>
           l = []
           \/ exists ids,
                l = [TaskCreate
                       (task_input cohort_definitions cohort_names
                          temporal_covariate_settings diagnostics_settings) ids]
                \/ exists id,
                     l = [TaskCreate
                            (task_input cohort_definitions cohort_names
                               temporal_covariate_settings diagnostics_settings)
                            ids;
                          WaitForResults id]
       end.
Proof.
  rewrite central_unfold. cbv zeta.
  destruct (organization_list (world st)) as [[e|orgs] w].
  { exists []. split; [trace_filter; reflexivity|]. by left. }
  set (st1 := {| world := w; trace := _ |}).
  assert (Hst1 : List.filter is_dispatch (trace st1)
                 = List.filter is_dispatch (trace st)) by by trace_filter.
  assert (Hreq : forall ids,
    exists l,
      List.filter is_dispatch
        (trace (request_and_wait cohort_definitions cohort_names
                  temporal_covariate_settings diagnostics_settings ids st1).2)
      = List.filter is_dispatch (trace st) ++ l
      /\ match (request_and_wait cohort_definitions cohort_names
                  temporal_covariate_settings diagnostics_settings ids st1).1 with
         | Return r =>
             (l = [] /\ r = not_in_collaboration)
             \/ exists ids id,
                  l = [TaskCreate
                         (task_input cohort_definitions cohort_names
                            temporal_covariate_settings diagnostics_settings) ids;
                       WaitForResults id]
         | Raise _ =>
             l = []
             \/ exists ids,
                  l = [TaskCreate
                         (task_input cohort_definitions cohort_names
                            temporal_covariate_settings diagnostics_settings) ids]
                  \/ exists id,
                       l = [TaskCreate
                              (task_input cohort_definitions cohort_names
                                 temporal_covariate_settings diagnostics_settings)
                              ids;
                            WaitForResults id]
         end).
  { intros ids.
    destruct (request_and_wait_dispatch cohort_definitions cohort_names
                temporal_covariate_settings diagnostics_settings ids st1)
      as (l & Hl & Hcase).
    exists l. rewrite Hl, Hst1. split; [done|].
    destruct (request_and_wait _ _ _ _ _ _).1 as [e|r].
    - right. exists ids. destruct Hcase as [->|[id ->]]; [by left|right; by exists id].
    - right. destruct Hcase as [id ->]. by exists ids, id. }
  destruct (ne_ALL _); [|apply Hreq].
  destruct (negb _); [|apply Hreq].
  exists []. rewrite app_nil_r. split; [done|]. by left.
Qed.
End CentralRuns.

Section CentralRunsWitnesses.
Import Central CentralCalls SampleCollaboration SampleService.

Lemma central_returns_results_witness :
  central (client := client) no_definitions no_definitions no_settings
    no_settings (Some (SelList [AInt 3; AInt 1])) start
  = (Return (JList [JStr "{}"%string]),
     {| world := tt;
        trace :=
          [Info (Text "Collecting participating organizations");
           OrganizationList;
           Info (Text "Requesting partial computation");
           TaskCreate
             (task_input no_definitions no_definitions no_settings no_settings)
             (SelList [AInt 3; AInt 1]);
           Info (TaskAssigned (Some (JInt 42)));
           Info (Text "Waiting for results");
           WaitForResults (JInt 42);
           Info (Text "Results received, sending them back to server")] |}).
Proof.
  apply (central_returns_results (client := client) no_definitions
           no_definitions no_settings no_settings (SelList [AInt 3; AInt 1])
           start organizations {[ "id"%string := JInt 42 ]} (JInt 42)
           (JList [JStr "{}"%string]) tt tt tt).
  - reflexivity.
  - right. refine (bool_decide_eq_true_1 _ _). vm_compute. reflexivity.
  - reflexivity.
  - reflexivity.
  - reflexivity.
Defined.

Lemma central_listing_failure_witness :
  central (client := scripted (Raise outage) (Raise outage) (Raise outage))
    no_definitions no_definitions no_settings no_settings None start
  = (Raise outage,
     {| world := tt;
        trace := [Info (Text "Collecting participating organizations");
                  OrganizationList] |}).
Proof.
  apply (central_listing_failure
           (client := scripted (Raise outage) (Raise outage) (Raise outage))
           no_definitions no_definitions no_settings no_settings None start
           outage tt).
  reflexivity.
Defined.

Lemma central_creation_failure_witness :
  central
    (client := scripted (Return organizations) (Raise outage) (Raise outage))
    no_definitions no_definitions no_settings no_settings
    (Some (SelStr "ALL")) start
  = (Raise outage,
     {| world := tt;
        trace :=
          [Info (Text "Collecting participating organizations");
           OrganizationList;
           Info (Text "Requesting partial computation");
           TaskCreate
             (task_input no_definitions no_definitions no_settings no_settings)
             (SelList [AInt 1; AInt 2; AInt 3])] |}).
Proof.
  apply (central_creation_failure
           (client := scripted (Return organizations) (Raise outage) (Raise outage))
           no_definitions no_definitions no_settings no_settings
           (SelStr "ALL") start organizations outage tt tt).
  - reflexivity.
  - by left.
  - reflexivity.
Defined.

Lemma central_wait_failure_witness :
  (central
     (client := scripted (Return organizations)
                  (Return {[ "id"%string := JInt 7 ]}) (Raise outage))
     no_definitions no_definitions no_settings no_settings
     (Some (SelStr "ALL")) start).1
  = Raise outage.
Proof.
  apply (central_wait_failure
           (client := scripted (Return organizations)
                        (Return {[ "id"%string := JInt 7 ]}) (Raise outage))
           no_definitions no_definitions no_settings no_settings
           (SelStr "ALL") start organizations {[ "id"%string := JInt 7 ]}
           (JInt 7) outage tt tt tt).
  - reflexivity.
  - by left.
  - reflexivity.
  - reflexivity.
  - reflexivity.
Defined.

Lemma central_task_without_id_witness :
  central
    (client := scripted (Return organizations)
                 (Return {[ "name"%string := JStr "task" ]}) (Raise outage))
    no_definitions no_definitions no_settings no_settings
    (Some (SelList [])) start
  = (Raise (KeyError "id"),
     {| world := tt;
        trace :=
          [Info (Text "Collecting participating organizations");
           OrganizationList;
           Info (Text "Requesting partial computation");
           TaskCreate
             (task_input no_definitions no_definitions no_settings no_settings)
             (SelList []);
           Info (TaskAssigned None);
           Info (Text "Waiting for results")] |}).
Proof.
  apply (central_task_without_id
           (client := scripted (Return organizations)
                        (Return {[ "name"%string := JStr "task" ]}) (Raise outage))
           no_definitions no_definitions no_settings no_settings
           (SelList []) start organizations
           {[ "name"%string := JStr "task" ]} tt tt).
  - reflexivity.
  - right. refine (bool_decide_eq_true_1 _ _). vm_compute. reflexivity.
  - reflexivity.
  - reflexivity.
Defined.
End CentralRunsWitnesses.

(* ================================================================== *)
(** * The worker, outcome by outcome *)
(* ================================================================== *)

Section WorkerRuns.
Import Worker WorkerCalls.
Context {Expression Options : Type} `{circe : Circe Expression Options}.
Context {World Connection RObject Frame : Type}
        `{ohdsi : Ohdsi World Connection RObject Frame}.
Implicit Types (st : state World (Worker.event (Expression:=Expression)
                    (Options:=Options) (Connection:=Connection) (RObject:=RObject))).
Implicit Types (ev : Worker.event (Expression:=Expression) (Options:=Options)
                  (Connection:=Connection) (RObject:=RObject)).

(** Every outcome of lines 135-186 after the cohort definition set is built,
    with the events each one records. *)
Lemma run_diagnostics_unfold conn meta_omop meta_run defs names tcs ds st :
  run_diagnostics conn meta_omop meta_run defs names tcs ds st
  = match build_cohort_definition_set meta_run defs names st with
    | (Raise e, s0) => (Raise e, s0)
    | (Return df, s0) =>
      let table := cohort_table_name meta_run in
      let rs := results_schema meta_omop in
      let cdm := cdm_schema meta_omop in
      match get_cohort_table_names table (world s0) with
      | (Raise e, w1) =>
          (Raise e, {| world := w1;
                       trace := trace s0 ++ [GetCohortTableNames table] |})
      | (Return tn, w1) =>
        let t1 := [GetCohortTableNames table;
                   Info (Text ("Cohort table name: " +:+ table));
                   Info (Tables tn);
                   Info (Text ("OMOP results schema: " +:+ rs));
                   CreateCohortTables conn rs tn] in
        match create_cohort_tables conn rs tn w1 with
        | (Raise e, w2) => (Raise e, {| world := w2; trace := trace s0 ++ t1 |})
        | (Return _, w2) =>
          let t2 := t1 ++ [Info (Text "Created cohort tables"); ConvertToR df] in
          match convert_to_r df w2 with
          | (Raise e, w3) => (Raise e, {| world := w3; trace := trace s0 ++ t2 |})
          | (Return rdf, w3) =>
            let t3 := t2 ++ [GenerateCohortSet conn cdm rs tn rdf] in
            match generate_cohort_set conn cdm rs tn rdf w3 with
            | (Raise e, w4) =>
                (Raise e, {| world := w4; trace := trace s0 ++ t3 |})
            | (Return _, w4) =>
              let t4 := t3 ++ [Info (Text "Generated cohort set");
                               CreateTemporalCovariateSettings tcs] in
              match create_temporal_covariate_settings tcs w4 with
              | (Raise e, w5) =>
                  (Raise e, {| world := w5; trace := trace s0 ++ t4 |})
              | (Return tc, w5) =>
                let t5 := t4 ++
                  [Info (Text "Created temporal covariate settings")] in
                let args :=
                  diagnostics_arguments conn meta_omop meta_run tn rdf tc ds in
                if no_repeated_keyword ds then
                  match execute_diagnostics args w5 with
                  | (Raise e, w6) =>
                      (Raise e,
                       {| world := w6;
                          trace := trace s0 ++ t5 ++ [ExecuteDiagnostics args] |})
                  | (Return _, w6) =>
                      (Return tt,
                       {| world := w6;
                          trace := trace s0 ++ t5 ++
                            [ExecuteDiagnostics args;
                             Info (Text "Executed diagnostics")] |})
                  end
                else
                  (Raise (TypeError "got multiple values for keyword argument"),
                   {| world := w5; trace := trace s0 ++ t5 |})
              end
            end
          end
        end
      end
    end.
Proof.
  unfold run_diagnostics, info. rewrite bind_run.
  destruct (build_cohort_definition_set _ _ _ _) as [[e|df] s0]; [done|].
  cbv zeta. rewrite bind_call.
  destruct (get_cohort_table_names _ _) as [[e|tn] w1]; [done|].
  cbv beta iota. rewrite !bind_emit, bind_call. cbn [world trace].
  destruct (create_cohort_tables _ _ _ _) as [[e|[]] w2]; cbv beta iota.
  { by rewrite <- !app_assoc. }
  rewrite bind_emit, bind_call. cbn [world trace].
  destruct (convert_to_r _ _) as [[e|rdf] w3]; cbv beta iota.
  { by rewrite <- !app_assoc. }
  rewrite bind_call. cbn [world trace].
  destruct (generate_cohort_set _ _ _ _ _ _) as [[e|[]] w4]; cbv beta iota.
  { by rewrite <- !app_assoc. }
  rewrite bind_emit, bind_call. cbn [world trace].
  destruct (create_temporal_covariate_settings _ _) as [[e|tc] w5]; cbv beta iota.
  { by rewrite <- !app_assoc. }
  rewrite bind_emit, bind_lift. cbn [world trace].
  unfold no_repeated_keyword, diagnostics_arguments.
  destruct (forallb _ _).
  2: { by rewrite <- !app_assoc. }
  rewrite bind_call. cbn [world trace].
  destruct (execute_diagnostics _ _) as [[e|[]] w6]; cbv beta iota.
  { by rewrite <- !app_assoc. }
  unfold emit, call. cbn [world trace]. by rewrite <- !app_assoc.
Qed.

Lemma cohort_diagnostics_unfold conn meta_omop meta_run defs names tcs ds st :
  cohort_diagnostics conn meta_omop meta_run defs names tcs ds st
  = match run_diagnostics conn meta_omop meta_run defs names tcs ds st with
    | (Raise e, s1) => (Raise e, s1)
    | (Return _, s1) =>
        let path := incidence_rate_csv meta_omop in
        match read_csv path (world s1) with
        | (Raise e, w) =>
            (Raise e, {| world := w; trace := trace s1 ++ [ReadCsv path] |})
        | (Return frame, w) =>
            (Return (to_json frame),
             {| world := w; trace := trace s1 ++ [ReadCsv path] |})
        end
    end.
Proof.
  unfold cohort_diagnostics. rewrite bind_run.
  destruct (run_diagnostics _ _ _ _ _ _ _ _) as [[e|[]] s1]; [done|].
  rewrite bind_call. by destruct (read_csv _ _) as [[e|frame] w].
Qed.

Lemma create_cohort_query_silent P d :
  (forall ev, P ev = true -> is_library_call ev = true) ->
  quiet P (_create_cohort_query (World:=World) (Connection:=Connection)
             (RObject:=RObject) d).
Proof.
  intros HP. unfold _create_cohort_query, call_pure.
  assert (Hev : forall ev, is_library_call ev = false -> P ev = false).
  { intros ev H1. destruct (P ev) eqn:E; [|done]. apply HP in E. congruence. }
  repeat first
    [ apply quiet_bind; [|intros ?]
    | apply quiet_call; by apply Hev
    | apply quiet_lift ].
Qed.

Lemma build_silent P meta_run defs names :
  (forall ev, P ev = true -> is_library_call ev = true) ->
  quiet P (build_cohort_definition_set (World:=World) (Connection:=Connection)
             (RObject:=RObject) meta_run defs names).
Proof.
  intros HP. unfold build_cohort_definition_set, info.
  assert (Hev : forall ev, is_library_call ev = false -> P ev = false).
  { intros ev H1. destruct (P ev) eqn:E; [|done]. apply HP in E. congruence. }
  repeat first
    [ apply quiet_bind; [|intros ?]
    | apply quiet_emit; by apply Hev
    | apply quiet_M_map; intros ?; by apply create_cohort_query_silent
    | apply quiet_lift
    | apply quiet_ret ].
Qed.

Lemma library_call_of_effect ev :
  is_effect ev = true -> is_library_call ev = true.
Proof. by destruct ev. Qed.

Lemma library_call_of_diagnostics_or_read ev :
  is_diagnostics_or_read ev = true -> is_library_call ev = true.
Proof. by destruct ev. Qed.

Lemma create_cohort_query_parse d st :
  List.filter is_parse (trace (_create_cohort_query d st).2)
  = List.filter is_parse (trace st) ++ [CohortExpressionFromJson d].
Proof.
  unfold _create_cohort_query, call_pure. rewrite bind_call.
  destruct (cohort_expression_from_json d) as [e|expr]; cbv beta iota.
  { by trace_filter. }
  rewrite !bind_call. cbv beta iota. cbn [world trace].
  destruct (build_cohort_query _ _) as [e|qs]; cbv beta iota.
  { by trace_filter. }
  unfold lift. by trace_filter.
Qed.

Lemma M_map_queries_accepted good st :
  Forall (fun d => exists q, cohort_query d = Return q) good ->
  exists qs st',
    M_map _create_cohort_query good st = (Return qs, st')
    /\ List.filter is_parse (trace st')
       = List.filter is_parse (trace st) ++ map CohortExpressionFromJson good.
Proof.
  intros Hgood. revert st.
  induction Hgood as [|d good [q Hq] _ IH]; intros st.
  - exists [], st. split; [done|]. by rewrite app_nil_r.
  - cbn [M_map]. rewrite bind_run.
    pose proof (create_cohort_query_value d st) as Hval.
    pose proof (create_cohort_query_parse d st) as Hparse.
    destruct (_create_cohort_query d st) as [r st1]. simpl in Hval, Hparse.
    rewrite Hval, Hq. rewrite bind_run.
    destruct (IH st1) as (qs & st' & -> & Htrace).
    exists (q :: qs), st'. split; [done|].
    rewrite Htrace, Hparse, <- app_assoc. done.
Qed.

Lemma M_map_queries_refused good d rest e st :
  Forall (fun d => exists q, cohort_query d = Return q) good ->
  cohort_query d = Raise e ->
  exists st',
    M_map _create_cohort_query (good ++ d :: rest) st = (Raise e, st')
    /\ List.filter is_parse (trace st')
       = List.filter is_parse (trace st)
         ++ map CohortExpressionFromJson (good ++ [d]).
Proof.
  intros Hgood Hd. revert st.
  induction Hgood as [|d0 good [q Hq] _ IH]; intros st.
  - cbn [app M_map]. rewrite bind_run.
    pose proof (create_cohort_query_value d st) as Hval.
    pose proof (create_cohort_query_parse d st) as Hparse.
    destruct (_create_cohort_query d st) as [r st1]. simpl in Hval, Hparse.
    rewrite Hval, Hd. by exists st1.
  - cbn [app M_map]. rewrite bind_run.
    pose proof (create_cohort_query_value d0 st) as Hval.
    pose proof (create_cohort_query_parse d0 st) as Hparse.
    destruct (_create_cohort_query d0 st) as [r st1]. simpl in Hval, Hparse.
    rewrite Hval, Hq. rewrite bind_run.
    destruct (IH st1) as (st' & -> & Htrace).
    exists st'. split; [done|].
    rewrite Htrace, Hparse, <- app_assoc. done.
Qed.

(** X11.  With a negative task identifier and at least one definition, the
    worker fails on line 117-119 with the [ValueError] of [float] (the zero
    padding puts the sign inside the digits), before anything is logged and
    before any library is called: the state is the one it started from. *)
Theorem negative_task_id_fails_first conn meta_omop meta_run
    (cohort_definitions : list json) (cohort_names : list string)
    (temporal_covariate_settings diagnostics_settings : gmap string json) st :
  task_id meta_run < 0 -> cohort_definitions <> [] ->
  cohort_diagnostics conn meta_omop meta_run cohort_definitions cohort_names
    temporal_covariate_settings diagnostics_settings st
  = (Raise (ValueError "could not convert string to float"), st).
Proof.
  intros Ht Hdefs.
  rewrite cohort_diagnostics_unfold, run_diagnostics_unfold, build_unfold.
  destruct cohort_definitions as [|d defs]; [done|].
  unfold cohort_ids. cbn [length seq result_map].
  by rewrite cohort_id_negative_task.
Qed.

(** X12.  With a task identifier that is not negative, the queries of line
    128 are built in order and the first definition whose query cannot be
    built ends the run with that error: the definitions before it and the
    failing one are parsed, those after it are not, and no library other
    than circe is called. *)
Theorem first_invalid_definition_aborts conn meta_omop meta_run
    (accepted : list json) (invalid : json) (remaining : list json)
    (cohort_names : list string)
    (temporal_covariate_settings diagnostics_settings : gmap string json)
    e st :
  0 <= task_id meta_run ->
  Forall (fun d => exists q, cohort_query d = Return q) accepted ->
  cohort_query invalid = Raise e ->
  let run := cohort_diagnostics conn meta_omop meta_run
               (accepted ++ invalid :: remaining) cohort_names
               temporal_covariate_settings diagnostics_settings st in
  run.1 = Raise e
  /\ List.filter is_parse (trace run.2)
     = List.filter is_parse (trace st)
       ++ map CohortExpressionFromJson (accepted ++ [invalid])
  /\ List.filter is_library_call (trace run.2)
     = List.filter is_library_call (trace st).
Proof.
  intros Ht Haccepted Hinvalid run.
  assert (Hbuild : exists st',
    build_cohort_definition_set meta_run (accepted ++ invalid :: remaining)
      cohort_names st = (Raise e, st')
    /\ List.filter is_parse (trace st')
       = List.filter is_parse (trace st)
         ++ map CohortExpressionFromJson (accepted ++ [invalid])).
  { rewrite build_unfold.
    destruct (cohort_ids_spec meta_run
                (length (accepted ++ invalid :: remaining)) Ht)
      as (ids & -> & _). cbv zeta.
    match goal with |- context [M_map _create_cohort_query _ ?s] =>
      destruct (M_map_queries_refused accepted invalid remaining e s
                  Haccepted Hinvalid) as (st' & -> & Htrace)
    end.
    exists st'. split; [done|]. rewrite Htrace. by trace_filter. }
  destruct Hbuild as (st' & Hbuild & Hparse).
  assert (Hrun : run = (Raise e, st')).
  { subst run. by rewrite cohort_diagnostics_unfold, run_diagnostics_unfold,
      Hbuild. }
  rewrite Hrun. split; [done|]. split; [done|].
  pose proof (build_silent is_library_call meta_run
                (accepted ++ invalid :: remaining) cohort_names
                ltac:(done) st) as Hq.
  by rewrite Hbuild in Hq.
Qed.

Lemma repeated_keyword ds k :
  In k explicit_keywords -> is_Some (ds !! k) -> no_repeated_keyword ds = false.
Proof.
  intros Hk [v Hv]. unfold no_repeated_keyword.
  destruct (forallb _ _) eqn:Hall; [|done].
  rewrite forallb_forall in Hall. specialize (Hall k Hk).
  apply bool_decide_eq_true_1 in Hall. congruence.
Qed.

(** X14.  Whatever the libraries answer, the calls of the worker that act
    on the database or read the export are the first [k] of: table creation,
    cohort generation, diagnostics, reading the export, in that order, none
    skipped and none repeated; a run that returns has made all four.  The
    connection, the schemas and the path are those of the source, and one
    table-names object and one converted definition set are shared by the
    calls that take them; which objects these are is the subject of
    [successful_run_calls]. *)
Theorem effects_in_order conn meta_omop meta_run
    (cohort_definitions : list json) (cohort_names : list string)
    (temporal_covariate_settings diagnostics_settings : gmap string json) st :
  let run := cohort_diagnostics conn meta_omop meta_run cohort_definitions
               cohort_names temporal_covariate_settings diagnostics_settings st in
  exists l,
    List.filter is_effect (trace run.2) = List.filter is_effect (trace st) ++ l
    /\ match run.1 with
       | Return _ =>
           exists names rdf tcs,
             l = planned_effects conn meta_omop meta_run diagnostics_settings
                   names rdf tcs
       | Raise _ =>
           l = []
           \/ exists names rdf tcs (k : nat),
                (0 < k <= 4)%nat
                /\ l = take k (planned_effects conn meta_omop meta_run
                                 diagnostics_settings names rdf tcs)
       end.
Proof.
  intros run. subst run.
  rewrite cohort_diagnostics_unfold, run_diagnostics_unfold.
  pose proof (build_silent is_effect meta_run cohort_definitions
                cohort_names library_call_of_effect st) as Hq.
  destruct (build_cohort_definition_set _ _ _ _) as [[e|df] s0]; simpl in Hq.
  { exists []. rewrite app_nil_r. split; [done|]. by left. }
  cbv zeta.
  destruct (get_cohort_table_names _ _) as [[e|tn] w1].
  { exists []. split; [trace_filter; by rewrite ?Hq, ?app_nil_r|]. by left. }
  destruct (create_cohort_tables _ _ _ _) as [[e|[]] w2].
  { exists (take 1 (planned_effects conn meta_omop meta_run
                       diagnostics_settings tn tn tn)).
    split; [trace_filter; by rewrite Hq|].
    right. exists tn, tn, tn, 1%nat. split; [lia|done]. }
  destruct (convert_to_r _ _) as [[e|rdf] w3].
  { exists (take 1 (planned_effects conn meta_omop meta_run
                       diagnostics_settings tn tn tn)).
    split; [trace_filter; by rewrite Hq|].
    right. exists tn, tn, tn, 1%nat. split; [lia|done]. }
  destruct (generate_cohort_set _ _ _ _ _ _) as [[e|[]] w4].
  { exists (take 2 (planned_effects conn meta_omop meta_run
                       diagnostics_settings tn rdf tn)).
    split; [trace_filter; by rewrite Hq|].
    right. exists tn, rdf, tn, 2%nat. split; [lia|done]. }
  destruct (create_temporal_covariate_settings _ _) as [[e|tc] w5].
  { exists (take 2 (planned_effects conn meta_omop meta_run
                       diagnostics_settings tn rdf tn)).
    split; [trace_filter; by rewrite Hq|].
    right. exists tn, rdf, tn, 2%nat. split; [lia|done]. }
  destruct (no_repeated_keyword _).
  2: { exists (take 2 (planned_effects conn meta_omop meta_run
                       diagnostics_settings tn rdf tn)).
    split; [trace_filter; by rewrite Hq|].
    right. exists tn, rdf, tn, 2%nat. split; [lia|done]. }
  destruct (execute_diagnostics _ _) as [[e|[]] w6].
  { exists (take 3 (planned_effects conn meta_omop meta_run
                       diagnostics_settings tn rdf tc)).
    split; [trace_filter; by rewrite Hq|].
    right. exists tn, rdf, tc, 3%nat. split; [lia|done]. }
  cbn [world trace]. unfold incidence_rate_csv, path_div.
  destruct (read_csv _ _) as [[e|frame] w7].
  - exists (planned_effects conn meta_omop meta_run diagnostics_settings
              tn rdf tc).
    split; [trace_filter; by rewrite Hq|].
    right. exists tn, rdf, tc, 4%nat. split; [lia|done].
  - exists (planned_effects conn meta_omop meta_run diagnostics_settings
              tn rdf tc).
    split; [trace_filter; by rewrite Hq|].
    by exists tn, rdf, tc.
Qed.

(** X15.  When [diagnostics_settings] holds one of the fourteen keywords
    that line 166-181 passes explicitly, the worker fails and neither runs
    the diagnostics nor reads the export; and if the same call with other
    settings returns, then this one fails with the [TypeError] of the
    repeated keyword after the tables were created and the cohorts
    generated. *)
Theorem repeated_keyword_refused conn meta_omop meta_run
    (cohort_definitions : list json) (cohort_names : list string)
    (temporal_covariate_settings diagnostics_settings : gmap string json)
    k st :
  In k explicit_keywords -> is_Some (diagnostics_settings !! k) ->
  let run := cohort_diagnostics conn meta_omop meta_run cohort_definitions
               cohort_names temporal_covariate_settings diagnostics_settings st in
  (exists e, run.1 = Raise e)
  /\ List.filter is_diagnostics_or_read (trace run.2)
     = List.filter is_diagnostics_or_read (trace st)
  /\ forall other_settings out st0,
       cohort_diagnostics conn meta_omop meta_run cohort_definitions
         cohort_names temporal_covariate_settings other_settings st
         = (Return out, st0) ->
       run.1 = Raise (TypeError "got multiple values for keyword argument")
       /\ exists names rdf,
            List.filter is_effect (trace run.2)
            = List.filter is_effect (trace st) ++
              [CreateCohortTables conn (results_schema meta_omop) names;
               GenerateCohortSet conn (cdm_schema meta_omop)
                 (results_schema meta_omop) names rdf].
Proof.
  intros Hk Hsome run. subst run.
  pose proof (repeated_keyword _ _ Hk Hsome) as Hrep.
  pose proof (build_silent is_diagnostics_or_read meta_run cohort_definitions
                cohort_names library_call_of_diagnostics_or_read st) as Hq.
  pose proof (build_silent is_effect meta_run cohort_definitions
                cohort_names library_call_of_effect st) as Hq'.
  split; [|split].
  - rewrite cohort_diagnostics_unfold, run_diagnostics_unfold, Hrep. cbv zeta.
    destruct (build_cohort_definition_set _ _ _ _) as [[e|df] s0]; [by eexists|].
    destruct (get_cohort_table_names _ _) as [[e|tn] w1]; [by eexists|].
    destruct (create_cohort_tables _ _ _ _) as [[e|[]] w2]; [by eexists|].
    destruct (convert_to_r _ _) as [[e|rdf] w3]; [by eexists|].
    destruct (generate_cohort_set _ _ _ _ _ _) as [[e|[]] w4]; [by eexists|].
    destruct (create_temporal_covariate_settings _ _) as [[e|tc] w5];
      by eexists.
  - rewrite cohort_diagnostics_unfold, run_diagnostics_unfold, Hrep. cbv zeta.
    destruct (build_cohort_definition_set _ _ _ _) as [[e|df] s0];
      simpl in Hq; [done|].
    destruct (get_cohort_table_names _ _) as [[e|tn] w1];
      [trace_filter; by rewrite ?Hq, ?app_nil_r|].
    destruct (create_cohort_tables _ _ _ _) as [[e|[]] w2];
      [trace_filter; by rewrite ?Hq, ?app_nil_r|].
    destruct (convert_to_r _ _) as [[e|rdf] w3];
      [trace_filter; by rewrite ?Hq, ?app_nil_r|].
    destruct (generate_cohort_set _ _ _ _ _ _) as [[e|[]] w4];
      [trace_filter; by rewrite ?Hq, ?app_nil_r|].
    destruct (create_temporal_covariate_settings _ _) as [[e|tc] w5];
      trace_filter; by rewrite ?Hq, ?app_nil_r.
  - intros other out st0.
    rewrite !cohort_diagnostics_unfold, !run_diagnostics_unfold, Hrep. cbv zeta.
    destruct (build_cohort_definition_set _ _ _ _) as [[e|df] s0];
      simpl in Hq'; [done|].
    destruct (get_cohort_table_names _ _) as [[e|tn] w1]; [done|].
    destruct (create_cohort_tables _ _ _ _) as [[e|[]] w2]; [done|].
    destruct (convert_to_r _ _) as [[e|rdf] w3]; [done|].
    destruct (generate_cohort_set _ _ _ _ _ _) as [[e|[]] w4]; [done|].
    destruct (create_temporal_covariate_settings _ _) as [[e|tc] w5]; [done|].
    intros _. split; [done|]. exists tn, rdf. trace_filter. by rewrite Hq'.
Qed.
End WorkerRuns.

Section WorkerRunsWitnesses.
Import Worker WorkerCalls SampleNode SampleFaults.

Lemma negative_task_id_fails_first_witness :
  cohort_diagnostics (circe := circe) (ohdsi := ohdsi) tt meta_omop
    negative_run definitions names no_settings no_settings start
  = (Raise (ValueError "could not convert string to float"), start).
Proof.
  apply (negative_task_id_fails_first (circe := circe) (ohdsi := ohdsi)
           tt meta_omop negative_run definitions names no_settings
           no_settings start).
  - simpl. lia.
  - discriminate.
Defined.

Lemma first_invalid_definition_aborts_witness :
  (cohort_diagnostics (circe := strict_circe) (ohdsi := ohdsi) tt meta_omop
     meta_run ([JDict []] ++ JNull :: [JDict []]) ["A"; "B"; "C"]%string
     no_settings no_settings start).1
  = Raise (ValueError "not a cohort definition")
  /\ List.filter is_parse
       (trace (cohort_diagnostics (circe := strict_circe) (ohdsi := ohdsi) tt
                 meta_omop meta_run ([JDict []] ++ JNull :: [JDict []])
                 ["A"; "B"; "C"]%string no_settings no_settings start).2)
     = List.filter is_parse (trace start)
       ++ map CohortExpressionFromJson ([JDict []] ++ [JNull])
  /\ List.filter is_library_call
       (trace (cohort_diagnostics (circe := strict_circe) (ohdsi := ohdsi) tt
                 meta_omop meta_run ([JDict []] ++ JNull :: [JDict []])
                 ["A"; "B"; "C"]%string no_settings no_settings start).2)
     = List.filter is_library_call (trace start).
Proof.
  apply (first_invalid_definition_aborts (circe := strict_circe)
           (ohdsi := ohdsi) tt meta_omop meta_run [JDict []] JNull [JDict []]
           ["A"; "B"; "C"]%string no_settings no_settings
           (ValueError "not a cohort definition") start).
  - simpl. lia.
  - repeat constructor. eexists. reflexivity.
  - reflexivity.
Defined.

Lemma repeated_keyword_refused_witness :
  (exists e,
     (cohort_diagnostics (circe := circe) (ohdsi := ohdsi) tt meta_omop
        meta_run definitions names no_settings repeated_settings start).1
     = Raise e)
  /\ List.filter is_diagnostics_or_read
       (trace (cohort_diagnostics (circe := circe) (ohdsi := ohdsi) tt
                 meta_omop meta_run definitions names no_settings
                 repeated_settings start).2)
     = List.filter is_diagnostics_or_read (trace start).
Proof.
  pose proof (repeated_keyword_refused (circe := circe) (ohdsi := ohdsi) tt
    meta_omop meta_run definitions names no_settings repeated_settings
    "connection"%string start
    ltac:(simpl; tauto) ltac:(eexists; reflexivity)) as (He & Hq & _).
  split; [exact He | exact Hq].
Defined.
End WorkerRunsWitnesses.

(* ================================================================== *)
(** * The worker, call by call *)
(* ================================================================== *)

Section WorkerOutcomes.
Import Worker WorkerCalls.
Context {Expression Options : Type} `{circe : Circe Expression Options}.
Context {World Connection RObject Frame : Type}
        `{ohdsi : Ohdsi World Connection RObject Frame}.
Implicit Types (st : state World (Worker.event (Expression:=Expression)
                    (Options:=Options) (Connection:=Connection) (RObject:=RObject))).

(** X13.  The worker returns exactly when the cohort definition set is
    built, each of the seven library calls of lines 137-189 returns in turn,
    each given what the calls before it returned, and the settings repeat
    no keyword of line 167-180.  The result is then the JSON text of the
    frame that [read_csv] returned, and the events after the build are, in
    order: the table names, three log lines, the table creation, a log
    line, the conversion of the definition set, the cohort generation, a
    log line, the covariate settings, a log line, the diagnostics over the
    fourteen keywords and the expanded settings, a log line, and the
    reading of [incidence_rate.csv]. *)
Theorem successful_run_calls conn meta_omop meta_run
    (cohort_definitions : list json) (cohort_names : list string)
    (temporal_covariate_settings diagnostics_settings : gmap string json)
    st out st' :
  cohort_diagnostics conn meta_omop meta_run cohort_definitions cohort_names
    temporal_covariate_settings diagnostics_settings st = (Return out, st')
  <->
  exists df s0 names w1 w2 rdf w3 w4 tcs w5 w6 frame w7,
    build_cohort_definition_set meta_run cohort_definitions cohort_names st
      = (Return df, s0)
    /\ get_cohort_table_names (cohort_table_name meta_run) (world s0)
      = (Return names, w1)
    /\ create_cohort_tables conn (results_schema meta_omop) names w1
      = (Return tt, w2)
    /\ convert_to_r df w2 = (Return rdf, w3)
    /\ generate_cohort_set conn (cdm_schema meta_omop) (results_schema meta_omop)
      names rdf w3 = (Return tt, w4)
    /\ create_temporal_covariate_settings temporal_covariate_settings w4
      = (Return tcs, w5)
    /\ no_repeated_keyword diagnostics_settings = true
    /\ execute_diagnostics
      (diagnostics_arguments conn meta_omop meta_run names rdf tcs
         diagnostics_settings) w5 = (Return tt, w6)
    /\ read_csv (export_folder meta_omop ++ ["exports"; "incidence_rate.csv"]%string)
      w6 = (Return frame, w7)
    /\ out = to_json frame
    /\ st' = {| world := w7;
               trace := trace s0 ++
                 [GetCohortTableNames (cohort_table_name meta_run);
                  Info (Text ("Cohort table name: " +:+ cohort_table_name meta_run));
                  Info (Tables names);
                  Info (Text ("OMOP results schema: " +:+ results_schema meta_omop));
                  CreateCohortTables conn (results_schema meta_omop) names;
                  Info (Text "Created cohort tables");
                  ConvertToR df;
                  GenerateCohortSet conn (cdm_schema meta_omop)
             (results_schema meta_omop) names rdf;
                  Info (Text "Generated cohort set");
                  CreateTemporalCovariateSettings temporal_covariate_settings;
                  Info (Text "Created temporal covariate settings");
                  ExecuteDiagnostics
             (diagnostics_arguments conn meta_omop meta_run names rdf tcs
                diagnostics_settings);
                  Info (Text "Executed diagnostics");
                  ReadCsv (export_folder meta_omop
                    ++ ["exports"; "incidence_rate.csv"]%string)] |}.
Proof.
  rewrite cohort_diagnostics_unfold, run_diagnostics_unfold.
  unfold incidence_rate_csv, path_div. rewrite <- (app_assoc _ [_] [_]).
  cbn [app]. split.
  - destruct (build_cohort_definition_set _ _ _ _) as [[e|df] s0]; [done|].
    cbv zeta.
    destruct (get_cohort_table_names _ _) as [[e|tn] w1] eqn:H1; [done|].
    destruct (create_cohort_tables _ _ _ _) as [[e|[]] w2] eqn:H2; [done|].
    destruct (convert_to_r _ _) as [[e|rdf] w3] eqn:H3; [done|].
    destruct (generate_cohort_set _ _ _ _ _ _) as [[e|[]] w4] eqn:H4; [done|].
    destruct (create_temporal_covariate_settings _ _) as [[e|tc] w5] eqn:H5;
      [done|].
    destruct (no_repeated_keyword _) eqn:H6; [|done].
    destruct (execute_diagnostics _ _) as [[e|[]] w6] eqn:H7; [done|].
    cbn [world trace].
    destruct (read_csv _ _) as [[e|frame] w7] eqn:H8; [done|].
    intros [= <- <-].
    exists df, s0, tn, w1, w2, rdf, w3, w4, tc, w5, w6, frame, w7.
    repeat split; try done. by rewrite <- ?app_assoc.
  - intros (df & s0 & tn & w1 & w2 & rdf & w3 & w4 & tc & w5 & w6 & frame & w7
            & -> & -> & -> & -> & -> & -> & -> & -> & Hread & -> & ->).
    cbv zeta. cbn [world trace]. rewrite Hread.
    by rewrite <- ?app_assoc.
Qed.

(** X16.  Once the cohort definition set is built, a failure of
    [get_cohort_table_names] (line 137) is the failure of the worker: the
    call is the last event, nothing is logged after it and no table is
    created. *)
Theorem table_names_failure conn meta_omop meta_run
    (cohort_definitions : list json) (cohort_names : list string)
    (temporal_covariate_settings diagnostics_settings : gmap string json)
    st df s0 e w :
  build_cohort_definition_set meta_run cohort_definitions cohort_names st
    = (Return df, s0) ->
  get_cohort_table_names (cohort_table_name meta_run) (world s0)
    = (Raise e, w) ->
  cohort_diagnostics conn meta_omop meta_run cohort_definitions cohort_names
    temporal_covariate_settings diagnostics_settings st
  = (Raise e,
     {| world := w;
        trace := trace s0 ++
          [GetCohortTableNames (cohort_table_name meta_run)] |}).
Proof.
  intros Hbuild Hfail.
  rewrite cohort_diagnostics_unfold, run_diagnostics_unfold, Hbuild. cbv zeta.
  rewrite Hfail.
  by rewrite <- ?app_assoc.
Qed.

(** X17.  A failure of [create_cohort_tables] (lines 143-147) is the
    failure of the worker: the run ends at that call, before the
    definition set is converted and before any cohort is generated. *)
Theorem create_cohort_tables_failure conn meta_omop meta_run
    (cohort_definitions : list json) (cohort_names : list string)
    (temporal_covariate_settings diagnostics_settings : gmap string json)
    st df s0 names w1 e w :
  build_cohort_definition_set meta_run cohort_definitions cohort_names st
    = (Return df, s0) ->
  get_cohort_table_names (cohort_table_name meta_run) (world s0)
    = (Return names, w1) ->
  create_cohort_tables conn (results_schema meta_omop) names w1
    = (Raise e, w) ->
  cohort_diagnostics conn meta_omop meta_run cohort_definitions cohort_names
    temporal_covariate_settings diagnostics_settings st
  = (Raise e,
     {| world := w;
        trace := trace s0 ++
          [GetCohortTableNames (cohort_table_name meta_run);
           Info (Text ("Cohort table name: " +:+ cohort_table_name meta_run));
           Info (Tables names);
           Info (Text ("OMOP results schema: " +:+ results_schema meta_omop));
           CreateCohortTables conn (results_schema meta_omop) names] |}).
Proof.
  intros Hbuild Hnames Hfail.
  rewrite cohort_diagnostics_unfold, run_diagnostics_unfold, Hbuild. cbv zeta.
  rewrite Hnames, Hfail.
  by rewrite <- ?app_assoc.
Qed.

(** X18.  A failure of [convert_to_r] (line 151) is the failure of the
    worker: the tables exist by then, and no cohort is generated. *)
Theorem convert_to_r_failure conn meta_omop meta_run
    (cohort_definitions : list json) (cohort_names : list string)
    (temporal_covariate_settings diagnostics_settings : gmap string json)
    st df s0 names w1 w2 e w :
  build_cohort_definition_set meta_run cohort_definitions cohort_names st
    = (Return df, s0) ->
  get_cohort_table_names (cohort_table_name meta_run) (world s0)
    = (Return names, w1) ->
  create_cohort_tables conn (results_schema meta_omop) names w1
    = (Return tt, w2) ->
  convert_to_r df w2 = (Raise e, w) ->
  cohort_diagnostics conn meta_omop meta_run cohort_definitions cohort_names
    temporal_covariate_settings diagnostics_settings st
  = (Raise e,
     {| world := w;
        trace := trace s0 ++
          [GetCohortTableNames (cohort_table_name meta_run);
           Info (Text ("Cohort table name: " +:+ cohort_table_name meta_run));
           Info (Tables names);
           Info (Text ("OMOP results schema: " +:+ results_schema meta_omop));
           CreateCohortTables conn (results_schema meta_omop) names;
           Info (Text "Created cohort tables");
           ConvertToR df] |}).
Proof.
  intros Hbuild Hnames Hcreate Hfail.
  rewrite cohort_diagnostics_unfold, run_diagnostics_unfold, Hbuild. cbv zeta.
  rewrite Hnames, Hcreate, Hfail.
  by rewrite <- ?app_assoc.
Qed.

(** X19.  A failure of [generate_cohort_set] (lines 152-158) is the
    failure of the worker: the run ends at that call, which was given the
    table names and the converted definition set that the earlier calls
    returned. *)
Theorem generate_cohort_set_failure conn meta_omop meta_run
    (cohort_definitions : list json) (cohort_names : list string)
    (temporal_covariate_settings diagnostics_settings : gmap string json)
    st df s0 names w1 w2 rdf w3 e w :
  build_cohort_definition_set meta_run cohort_definitions cohort_names st
    = (Return df, s0) ->
  get_cohort_table_names (cohort_table_name meta_run) (world s0)
    = (Return names, w1) ->
  create_cohort_tables conn (results_schema meta_omop) names w1
    = (Return tt, w2) ->
  convert_to_r df w2 = (Return rdf, w3) ->
  generate_cohort_set conn (cdm_schema meta_omop) (results_schema meta_omop)
    names rdf w3 = (Raise e, w) ->
  cohort_diagnostics conn meta_omop meta_run cohort_definitions cohort_names
    temporal_covariate_settings diagnostics_settings st
  = (Raise e,
     {| world := w;
        trace := trace s0 ++
          [GetCohortTableNames (cohort_table_name meta_run);
           Info (Text ("Cohort table name: " +:+ cohort_table_name meta_run));
           Info (Tables names);
           Info (Text ("OMOP results schema: " +:+ results_schema meta_omop));
           CreateCohortTables conn (results_schema meta_omop) names;
           Info (Text "Created cohort tables");
           ConvertToR df;
           GenerateCohortSet conn (cdm_schema meta_omop)
             (results_schema meta_omop) names rdf] |}).
Proof.
  intros Hbuild Hnames Hcreate Hconvert Hfail.
  rewrite cohort_diagnostics_unfold, run_diagnostics_unfold, Hbuild. cbv zeta.
  rewrite Hnames, Hcreate, Hconvert, Hfail.
  by rewrite <- ?app_assoc.
Qed.

(** X20.  A failure of [create_temporal_covariate_settings] (lines
    161-163) is the failure of the worker: the cohorts are generated by
    then, and the diagnostics do not run. *)
Theorem covariate_settings_failure conn meta_omop meta_run
    (cohort_definitions : list json) (cohort_names : list string)
    (temporal_covariate_settings diagnostics_settings : gmap string json)
    st df s0 names w1 w2 rdf w3 w4 e w :
  build_cohort_definition_set meta_run cohort_definitions cohort_names st
    = (Return df, s0) ->
  get_cohort_table_names (cohort_table_name meta_run) (world s0)
    = (Return names, w1) ->
  create_cohort_tables conn (results_schema meta_omop) names w1
    = (Return tt, w2) ->
  convert_to_r df w2 = (Return rdf, w3) ->
  generate_cohort_set conn (cdm_schema meta_omop) (results_schema meta_omop)
    names rdf w3 = (Return tt, w4) ->
  create_temporal_covariate_settings temporal_covariate_settings w4
    = (Raise e, w) ->
  cohort_diagnostics conn meta_omop meta_run cohort_definitions cohort_names
    temporal_covariate_settings diagnostics_settings st
  = (Raise e,
     {| world := w;
        trace := trace s0 ++
          [GetCohortTableNames (cohort_table_name meta_run);
           Info (Text ("Cohort table name: " +:+ cohort_table_name meta_run));
           Info (Tables names);
           Info (Text ("OMOP results schema: " +:+ results_schema meta_omop));
           CreateCohortTables conn (results_schema meta_omop) names;
           Info (Text "Created cohort tables");
           ConvertToR df;
           GenerateCohortSet conn (cdm_schema meta_omop)
             (results_schema meta_omop) names rdf;
           Info (Text "Generated cohort set");
           CreateTemporalCovariateSettings temporal_covariate_settings] |}).
Proof.
  intros Hbuild Hnames Hcreate Hconvert Hgenerate Hfail.
  rewrite cohort_diagnostics_unfold, run_diagnostics_unfold, Hbuild. cbv zeta.
  rewrite Hnames, Hcreate, Hconvert, Hgenerate, Hfail.
  by rewrite <- ?app_assoc.
Qed.

(** X21.  A failure of [execute_diagnostics] (lines 166-185) is the
    failure of the worker: the run ends at that call, "Executed
    diagnostics" is not logged and the export is not read. *)
Theorem execute_diagnostics_failure conn meta_omop meta_run
    (cohort_definitions : list json) (cohort_names : list string)
    (temporal_covariate_settings diagnostics_settings : gmap string json)
    st df s0 names w1 w2 rdf w3 w4 tcs w5 e w :
  build_cohort_definition_set meta_run cohort_definitions cohort_names st
    = (Return df, s0) ->
  get_cohort_table_names (cohort_table_name meta_run) (world s0)
    = (Return names, w1) ->
  create_cohort_tables conn (results_schema meta_omop) names w1
    = (Return tt, w2) ->
  convert_to_r df w2 = (Return rdf, w3) ->
  generate_cohort_set conn (cdm_schema meta_omop) (results_schema meta_omop)
    names rdf w3 = (Return tt, w4) ->
  create_temporal_covariate_settings temporal_covariate_settings w4
    = (Return tcs, w5) ->
  no_repeated_keyword diagnostics_settings = true ->
  execute_diagnostics
    (diagnostics_arguments conn meta_omop meta_run names rdf tcs
       diagnostics_settings) w5 = (Raise e, w) ->
  cohort_diagnostics conn meta_omop meta_run cohort_definitions cohort_names
    temporal_covariate_settings diagnostics_settings st
  = (Raise e,
     {| world := w;
        trace := trace s0 ++
          [GetCohortTableNames (cohort_table_name meta_run);
           Info (Text ("Cohort table name: " +:+ cohort_table_name meta_run));
           Info (Tables names);
           Info (Text ("OMOP results schema: " +:+ results_schema meta_omop));
           CreateCohortTables conn (results_schema meta_omop) names;
           Info (Text "Created cohort tables");
           ConvertToR df;
           GenerateCohortSet conn (cdm_schema meta_omop)
             (results_schema meta_omop) names rdf;
           Info (Text "Generated cohort set");
           CreateTemporalCovariateSettings temporal_covariate_settings;
           Info (Text "Created temporal covariate settings");
           ExecuteDiagnostics
             (diagnostics_arguments conn meta_omop meta_run names rdf tcs
                diagnostics_settings)] |}).
Proof.
  intros Hbuild Hnames Hcreate Hconvert Hgenerate Hsettings Hkeywords Hfail.
  rewrite cohort_diagnostics_unfold, run_diagnostics_unfold, Hbuild. cbv zeta.
  rewrite Hnames, Hcreate, Hconvert, Hgenerate, Hsettings, Hkeywords, Hfail.
  by rewrite <- ?app_assoc.
Qed.

(** X22.  A failure of [read_csv] (line 189) is the failure of the worker,
    after every earlier step has run: the trace is that of a completed run
    and only the result is missing. *)
Theorem read_csv_failure conn meta_omop meta_run
    (cohort_definitions : list json) (cohort_names : list string)
    (temporal_covariate_settings diagnostics_settings : gmap string json)
    st df s0 names w1 w2 rdf w3 w4 tcs w5 w6 e w :
  build_cohort_definition_set meta_run cohort_definitions cohort_names st
    = (Return df, s0) ->
  get_cohort_table_names (cohort_table_name meta_run) (world s0)
    = (Return names, w1) ->
  create_cohort_tables conn (results_schema meta_omop) names w1
    = (Return tt, w2) ->
  convert_to_r df w2 = (Return rdf, w3) ->
  generate_cohort_set conn (cdm_schema meta_omop) (results_schema meta_omop)
    names rdf w3 = (Return tt, w4) ->
  create_temporal_covariate_settings temporal_covariate_settings w4
    = (Return tcs, w5) ->
  no_repeated_keyword diagnostics_settings = true ->
  execute_diagnostics
    (diagnostics_arguments conn meta_omop meta_run names rdf tcs
       diagnostics_settings) w5 = (Return tt, w6) ->
  read_csv (export_folder meta_omop ++ ["exports"; "incidence_rate.csv"]%string)
    w6 = (Raise e, w) ->
  cohort_diagnostics conn meta_omop meta_run cohort_definitions cohort_names
    temporal_covariate_settings diagnostics_settings st
  = (Raise e,
     {| world := w;
        trace := trace s0 ++
          [GetCohortTableNames (cohort_table_name meta_run);
           Info (Text ("Cohort table name: " +:+ cohort_table_name meta_run));
           Info (Tables names);
           Info (Text ("OMOP results schema: " +:+ results_schema meta_omop));
           CreateCohortTables conn (results_schema meta_omop) names;
           Info (Text "Created cohort tables");
           ConvertToR df;
           GenerateCohortSet conn (cdm_schema meta_omop)
             (results_schema meta_omop) names rdf;
           Info (Text "Generated cohort set");
           CreateTemporalCovariateSettings temporal_covariate_settings;
           Info (Text "Created temporal covariate settings");
           ExecuteDiagnostics
             (diagnostics_arguments conn meta_omop meta_run names rdf tcs
                diagnostics_settings);
           Info (Text "Executed diagnostics");
           ReadCsv (export_folder meta_omop
                    ++ ["exports"; "incidence_rate.csv"]%string)] |}).
Proof.
  intros Hbuild Hnames Hcreate Hconvert Hgenerate Hsettings Hkeywords Hdiagnostics Hfail.
  rewrite cohort_diagnostics_unfold, run_diagnostics_unfold, Hbuild. cbv zeta.
  rewrite Hnames, Hcreate, Hconvert, Hgenerate, Hsettings, Hkeywords, Hdiagnostics. cbn [world trace].
  unfold incidence_rate_csv, path_div. rewrite <- (app_assoc _ [_] [_]).
  cbn [app]. rewrite Hfail.
  by rewrite <- ?app_assoc.
Qed.

End WorkerOutcomes.

Section WorkerOutcomesWitnesses.
Import Worker WorkerCalls SampleNode SampleOutages.

Lemma successful_run_calls_witness :
  exists df s0 tables w1 w2 rdf w3 w4 tcs w5 w6 frame w7,
    build_cohort_definition_set (circe := circe) meta_run definitions names
      start = (Return df, s0)
    /\ get_cohort_table_names (Ohdsi := ohdsi) (cohort_table_name meta_run)
         (world s0) = (Return tables, w1)
    /\ create_cohort_tables (Ohdsi := ohdsi) tt (results_schema meta_omop)
         tables w1 = (Return tt, w2)
    /\ convert_to_r (Ohdsi := ohdsi) df w2 = (Return rdf, w3)
    /\ generate_cohort_set (Ohdsi := ohdsi) tt (cdm_schema meta_omop)
         (results_schema meta_omop) tables rdf w3 = (Return tt, w4)
    /\ create_temporal_covariate_settings (Ohdsi := ohdsi) no_settings w4
       = (Return tcs, w5)
    /\ no_repeated_keyword no_settings = true
    /\ execute_diagnostics (Ohdsi := ohdsi)
         (diagnostics_arguments tt meta_omop meta_run tables rdf tcs
            no_settings) w5 = (Return tt, w6)
    /\ read_csv (Ohdsi := ohdsi)
         (export_folder meta_omop ++ ["exports"; "incidence_rate.csv"]%string)
         w6 = (Return frame, w7)
    /\ "tmp/exports/incidence_rate.csv"%string = to_json (Ohdsi := ohdsi) frame
    /\ (cohort_diagnostics (circe := circe) (ohdsi := ohdsi) tt meta_omop
          meta_run definitions names no_settings no_settings start).2
       = {| world := w7;
            trace := trace s0 ++
              [GetCohortTableNames (cohort_table_name meta_run);
               Info (Text ("Cohort table name: "
                           +:+ cohort_table_name meta_run));
               Info (Tables tables);
               Info (Text ("OMOP results schema: "
                           +:+ results_schema meta_omop));
               CreateCohortTables tt (results_schema meta_omop) tables;
               Info (Text "Created cohort tables");
               ConvertToR df;
               GenerateCohortSet tt (cdm_schema meta_omop)
                 (results_schema meta_omop) tables rdf;
               Info (Text "Generated cohort set");
               CreateTemporalCovariateSettings no_settings;
               Info (Text "Created temporal covariate settings");
               ExecuteDiagnostics
                 (diagnostics_arguments tt meta_omop meta_run tables rdf tcs
                    no_settings);
               Info (Text "Executed diagnostics");
               ReadCsv (export_folder meta_omop
                        ++ ["exports"; "incidence_rate.csv"]%string)] |}.
Proof.
  apply (proj1 (successful_run_calls (circe := circe) (ohdsi := ohdsi) tt
                  meta_omop meta_run definitions names no_settings no_settings
                  start "tmp/exports/incidence_rate.csv"%string _)).
  vm_compute. reflexivity.
Defined.

Lemma table_names_failure_witness :
  (cohort_diagnostics (circe := circe) (ohdsi := failing_at AtTableNames) tt
     meta_omop meta_run definitions names no_settings no_settings start).1
  = Raise library_error.
Proof.
  by erewrite (table_names_failure (circe := circe)
                 (ohdsi := failing_at AtTableNames) tt meta_omop meta_run
                 definitions names no_settings no_settings start)
    by reflexivity.
Defined.

Lemma create_cohort_tables_failure_witness :
  (cohort_diagnostics (circe := circe) (ohdsi := failing_at AtCreateTables) tt
     meta_omop meta_run definitions names no_settings no_settings start).1
  = Raise library_error.
Proof.
  by erewrite (create_cohort_tables_failure (circe := circe)
                 (ohdsi := failing_at AtCreateTables) tt meta_omop meta_run
                 definitions names no_settings no_settings start)
    by reflexivity.
Defined.

Lemma convert_to_r_failure_witness :
  (cohort_diagnostics (circe := circe) (ohdsi := failing_at AtConvert) tt
     meta_omop meta_run definitions names no_settings no_settings start).1
  = Raise library_error.
Proof.
  by erewrite (convert_to_r_failure (circe := circe)
                 (ohdsi := failing_at AtConvert) tt meta_omop meta_run
                 definitions names no_settings no_settings start)
    by reflexivity.
Defined.

Lemma generate_cohort_set_failure_witness :
  (cohort_diagnostics (circe := circe) (ohdsi := failing_at AtGenerate) tt
     meta_omop meta_run definitions names no_settings no_settings start).1
  = Raise library_error.
Proof.
  by erewrite (generate_cohort_set_failure (circe := circe)
                 (ohdsi := failing_at AtGenerate) tt meta_omop meta_run
                 definitions names no_settings no_settings start)
    by reflexivity.
Defined.

Lemma covariate_settings_failure_witness :
  (cohort_diagnostics (circe := circe) (ohdsi := failing_at AtSettings) tt
     meta_omop meta_run definitions names no_settings no_settings start).1
  = Raise library_error.
Proof.
  by erewrite (covariate_settings_failure (circe := circe)
                 (ohdsi := failing_at AtSettings) tt meta_omop meta_run
                 definitions names no_settings no_settings start)
    by reflexivity.
Defined.

Lemma execute_diagnostics_failure_witness :
  (cohort_diagnostics (circe := circe) (ohdsi := failing_at AtDiagnostics) tt
     meta_omop meta_run definitions names no_settings no_settings start).1
  = Raise library_error.
Proof.
  by erewrite (execute_diagnostics_failure (circe := circe)
                 (ohdsi := failing_at AtDiagnostics) tt meta_omop meta_run
                 definitions names no_settings no_settings start)
    by reflexivity.
Defined.

Lemma read_csv_failure_witness :
  (cohort_diagnostics (circe := circe) (ohdsi := failing_at AtRead) tt
     meta_omop meta_run definitions names no_settings no_settings start).1
  = Raise library_error.
Proof.
  by erewrite (read_csv_failure (circe := circe)
                 (ohdsi := failing_at AtRead) tt meta_omop meta_run
                 definitions names no_settings no_settings start)
    by reflexivity.
Defined.
End WorkerOutcomesWitnesses.
